(** * PDFtoImage: the page-conversion worker

    A shallow embedding of [PdfProcessingThread] (src/PDFtoImage.py,
    lines 11-102) and the properties of its event stream.

    The worker talks to four collaborators: the operating system
    ([os.path.exists], [os.makedirs], [os.path.join]), the PDF library
    ([fitz.open], [load_page], [get_pixmap]), the imaging library
    ([Image.frombytes], [convert], [save]) and the interactive shell, which
    receives the three Qt signals and may call [request_interruption_sync]
    from its own thread.  Their answers are collected in a [world]; the
    worker itself is a computation in a small state-and-exception monad
    whose state is the Python frame of [run] together with the trace of
    everything the worker did to the outside. *)

From Stdlib Require Import String Ascii List ZArith Arith Lia Bool.
From Stdlib Require Import Decimal DecimalNat DecimalString Sorted.
Import ListNotations.

Local Open Scope string_scope.
Local Open Scope list_scope.

(* ================================================================== *)
(** ** Python text *)

Module Py.

(** One line feed, the [\n] of the source's f-strings. *)
Definition nl : string := String (ascii_of_nat 10) EmptyString.

(** [str(n)] for a non-negative [int]. *)
Definition str_nat (n : nat) : string :=
  NilZero.string_of_uint (Nat.to_uint n).

Definition is_upper (c : ascii) : bool :=
  ((65 <=? nat_of_ascii c) && (nat_of_ascii c <=? 90))%nat.

Definition is_digit (c : ascii) : bool :=
  ((48 <=? nat_of_ascii c) && (nat_of_ascii c <=? 57))%nat.

Definition lower_char (c : ascii) : ascii :=
  if is_upper c then ascii_of_nat (nat_of_ascii c + 32) else c.

(** Lower-casing of the letters A-Z, every other character being kept.
    The shell looks for "cancelled" in a lower-cased summary (lines 281 and
    294); no character outside A-Z lower-cases to a letter of that word, so
    there this function decides as [str.lower] does.  The lower-casing of
    the image format in [__init__], whose result is used as it is, is an
    answer of the Python runtime instead: [str_lower] below. *)
Fixpoint lower (s : string) : string :=
  match s with
  | EmptyString => EmptyString
  | String c r => String (lower_char c) (lower r)
  end.

Fixpoint all_chars (p : ascii -> bool) (s : string) : bool :=
  match s with
  | EmptyString => true
  | String c r => p c && all_chars p r
  end.

Definition startswith (p s : string) : bool := String.prefix p s.

Fixpoint endswith_char (c : ascii) (s : string) : bool :=
  match s with
  | EmptyString => false
  | String d EmptyString => Ascii.eqb c d
  | String _ r => endswith_char c r
  end.

(** [os.path.join(a, b)] for two components, as [posixpath] computes it:
    an absolute [b] replaces [a]; otherwise [b] is appended, with one
    separator unless [a] is empty or already ends in one. *)
Definition os_path_join (a b : string) : string :=
  if startswith "/" b then b
  else if (a =? "")%string || endswith_char "/" a then (a ++ b)%string
  else (a ++ "/" ++ b)%string.

End Py.

(* ================================================================== *)
(** ** Data model *)

(** Python exceptions.  The worker has two kinds of handler,
    [except OSError] and [except Exception]; an exception is its class, as
    far as those handlers tell classes apart, and its [str()]. *)
Inductive exception_class : Type :=
| OSError
| OtherException.

Record exn : Type := mk_exn {
  exn_class : exception_class;
  exn_str : string
}.

Definition isinstance_OSError (e : exn) : bool :=
  match exn_class e with OSError => true | OtherException => false end.

Definition isinstance_Exception (_ : exn) : bool := true.

(** A [fitz.Document], as far as the worker looks at it: [len(doc)]. *)
Record Document : Type := mk_Document {
  page_count : nat
}.

(** A [fitz.Pixmap]: the worker reads [alpha], [width] and [height]. *)
Record Pixmap : Type := mk_Pixmap {
  alpha : bool;
  width : nat;
  height : nat
}.

Inductive image_mode : Type :=
| RGB
| RGBA.

Definition image_mode_eqb (a b : image_mode) : bool :=
  match a, b with
  | RGB, RGB | RGBA, RGBA => true
  | _, _ => false
  end.

(** A [PIL.Image]: its mode and its size. *)
Record Image : Type := mk_Image {
  mode : image_mode;
  size : nat * nat
}.

(** The three Qt signals of the worker (lines 13-15). *)
Inductive signal : Type :=
| progress_update (current_page : nat)
| total_pages_known (total : nat)
| finished_conversion (message : string) (success : bool)
                      (errors : list string).

(** What the worker does to the outside, in the order it does it. *)
Inductive action : Type :=
| MakeDirs (path : string)
| CheckInterruption (requested : bool)
| LoadPage (i : nat)
| Save (path : string) (im : Image) (failure : option exn)
| Print (line : string)
| Close
| Emit (s : signal).

(** The thread object (the attributes set in lines 17-23). *)
Record PdfProcessingThread : Type := mk_thread {
  input_pdf_path : string;
  output_directory : string;
  dpi : Z;
  image_format : string;
  _is_interruption_requested : bool
}.

(** Lines 25-26. *)
Definition request_interruption_sync (self : PdfProcessingThread)
    : PdfProcessingThread :=
  {| input_pdf_path := input_pdf_path self;
     output_directory := output_directory self;
     dpi := dpi self;
     image_format := image_format self;
     _is_interruption_requested := true |}.

(** The answers of the Python runtime and of the collaborators during one
    run.  [str_lower] is [str.lower].  The per-page answers are indexed by
    the 0-based page index of the iteration that asks; [shell_requests n]
    tells whether the shell thread has called [request_interruption_sync]
    since the worker last looked at the flag, by the time it looks for the
    [n]-th time (counting from 0).  A call that fails may raise any
    exception: [os.makedirs] as well, and the [print] of line 78, whose
    exception in iteration [i], when it raises, is [print_error i].  Only
    [emit] and [close] have no answer: they are taken to return. *)
Record world : Type := mk_world {
  str_lower : string -> string;
  path_exists : string -> bool;
  makedirs_error : string -> option exn;
  fitz_open : string -> exn + Document;
  load_page_error : nat -> option exn;
  get_pixmap : nat -> Z -> exn + Pixmap;
  frombytes_error : nat -> option exn;
  convert_error : nat -> option exn;
  save_error : nat -> option exn;
  print_error : nat -> option exn;
  shell_requests : nat -> bool
}.

(** [__init__] (lines 17-23). *)
Definition init (W : world) (input_pdf_path output_directory : string)
    (dpi : Z) (image_format : string) : PdfProcessingThread :=
  {| input_pdf_path := input_pdf_path;
     output_directory := output_directory;
     dpi := dpi;
     image_format := str_lower W image_format;
     _is_interruption_requested := false |}.

(** The frame of [run]: the thread object, the local variables, the
    number of times the flag has been looked at, and the trace. *)
Record frame : Type := mk_frame {
  self : PdfProcessingThread;
  page_save_errors : list string;
  converted_count : nat;
  doc : option Document;
  total_pages : nat;
  reads : nat;
  trace : list action
}.

Definition start (t : PdfProcessingThread) : frame :=
  {| self := t; page_save_errors := []; converted_count := 0;
     doc := None; total_pages := 0; reads := 0; trace := [] |}.

Definition set_self (t : PdfProcessingThread) (s : frame) : frame :=
  mk_frame t (page_save_errors s) (converted_count s) (doc s)
           (total_pages s) (reads s) (trace s).

Definition set_page_save_errors (l : list string) (s : frame) : frame :=
  mk_frame (self s) l (converted_count s) (doc s) (total_pages s)
           (reads s) (trace s).

Definition set_converted_count (n : nat) (s : frame) : frame :=
  mk_frame (self s) (page_save_errors s) n (doc s) (total_pages s)
           (reads s) (trace s).

Definition set_doc (d : option Document) (s : frame) : frame :=
  mk_frame (self s) (page_save_errors s) (converted_count s) d
           (total_pages s) (reads s) (trace s).

Definition set_total_pages (n : nat) (s : frame) : frame :=
  mk_frame (self s) (page_save_errors s) (converted_count s) (doc s) n
           (reads s) (trace s).

Definition set_reads (n : nat) (s : frame) : frame :=
  mk_frame (self s) (page_save_errors s) (converted_count s) (doc s)
           (total_pages s) n (trace s).

Definition log (a : action) (s : frame) : frame :=
  mk_frame (self s) (page_save_errors s) (converted_count s) (doc s)
           (total_pages s) (reads s) (trace s ++ [a]).

(* ================================================================== *)
(** ** The monad of [run] *)

(** How a block of statements ends: it falls through with a value, it
    executes [return], or it raises. *)
Inductive completion (A : Type) : Type :=
| Normal (a : A)
| Returned
| Raised (e : exn).

Arguments Normal {A} a.
Arguments Returned {A}.
Arguments Raised {A} e.

Definition M (A : Type) : Type := frame -> completion A * frame.

Definition ret {A} (a : A) : M A := fun s => (Normal a, s).

Definition bind {A B} (m : M A) (k : A -> M B) : M B :=
  fun s =>
    match m s with
    | (Normal a, s') => k a s'
    | (Returned, s') => (Returned, s')
    | (Raised e, s') => (Raised e, s')
    end.

Declare Scope py_scope.
Delimit Scope py_scope with py.
Notation "x <- c1 ;; c2" := (bind c1 (fun x => c2))
  (at level 61, c1 at next level, right associativity) : py_scope.
Notation "c1 ;; c2" := (bind c1 (fun _ => c2))
  (at level 61, right associativity) : py_scope.

Definition return_ {A} : M A := fun s => (Returned, s).
Definition raise {A} (e : exn) : M A := fun s => (Raised e, s).
Definition read {A} (f : frame -> A) : M A := fun s => (Normal (f s), s).
Definition assign (f : frame -> frame) : M unit :=
  fun s => (Normal tt, f s).
Definition perform (a : action) : M unit := assign (log a).
Definition emit (sg : signal) : M unit := perform (Emit sg).

(** What follows a [try] body whose handler catches the classes [catches]. *)
Definition except {A} (catches : exn -> bool) (handler : exn -> M A)
    (r : completion A * frame) : completion A * frame :=
  match r with
  | (Raised e, s) => if catches e then handler e s else (Raised e, s)
  | _ => r
  end.

(** What follows a [try ... except] whose [finally] block is [cleanup]:
    the block runs on every way out, and the way out is kept unless the
    block itself returns or raises. *)
Definition finally {A} (cleanup : M unit) (r : completion A * frame)
    : completion A * frame :=
  match cleanup (snd r) with
  | (Normal _, s) => (fst r, s)
  | (Returned, s) => (Returned, s)
  | (Raised e, s) => (Raised e, s)
  end.

Definition try_except {A} (body : M A) (catches : exn -> bool)
    (handler : exn -> M A) : M A :=
  fun s => except catches handler (body s).

Definition try_except_finally {A} (body : M A) (catches : exn -> bool)
    (handler : exn -> M A) (cleanup : M unit) : M A :=
  fun s => finally cleanup (except catches handler (body s)).

(** [for x in l: body x]. *)
Fixpoint for_each {A} (l : list A) (body : A -> M unit) : M unit :=
  match l with
  | [] => ret tt
  | x :: rest => bind (body x) (fun _ => for_each rest body)
  end.

(** [range(n)]. *)
Definition range (n : nat) : list nat := seq 0 n.

(* ================================================================== *)
(** ** The worker *)

Section Worker.

Variable W : world.

Local Open Scope py_scope.

Definition lift {A} (r : exn + A) : M A :=
  match r with
  | inl e => raise e
  | inr a => ret a
  end.

Definition raising {A} (failure : option exn) (a : A) : exn + A :=
  match failure with
  | Some e => inl e
  | None => inr a
  end.

Definition os_path_exists (p : string) : M bool := ret (path_exists W p).

Definition os_makedirs (p : string) : M unit :=
  perform (MakeDirs p) ;;
  match makedirs_error W p with
  | Some e => raise e
  | None => ret tt
  end.

(** The [print] of line 78, in iteration [i]. *)
Definition print (i : nat) (line : string) : M unit :=
  perform (Print line) ;;
  match print_error W i with
  | Some e => raise e
  | None => ret tt
  end.

(** Reading [self._is_interruption_requested]: whatever the shell thread
    has done to the flag by now is visible, and the read is counted. *)
Definition check_interruption : M bool :=
  fun s =>
    let t := if shell_requests W (reads s)
             then request_interruption_sync (self s) else self s in
    let requested := _is_interruption_requested t in
    (Normal requested,
     log (CheckInterruption requested) (set_reads (S (reads s)) (set_self t s))).

Definition Image_frombytes (i : nat) (m : image_mode) (sz : nat * nat)
    : exn + Image :=
  raising (frombytes_error W i) (mk_Image m sz).

Definition Image_convert (i : nat) (im : Image) (m : image_mode)
    : exn + Image :=
  raising (convert_error W i) (mk_Image m (size im)).

Definition Image_save (i : nat) (im : Image) (path : string) : M unit :=
  perform (Save path im (save_error W i)) ;;
  match save_error W i with
  | Some e => raise e
  | None => ret tt
  end.

(** Lines 60-69: the image of page [i] that is handed to [save], or the
    exception one of the library calls raises on the way. *)
Definition page_image (t : PdfProcessingThread) (i : nat) : exn + Image :=
  match load_page_error W i with
  | Some e => inl e
  | None =>
    match get_pixmap W i (dpi t) with
    | inl e => inl e
    | inr pix =>
      match (if alpha pix
             then Image_frombytes i RGBA (width pix, height pix)
             else Image_frombytes i RGB (width pix, height pix)) with
      | inl e => inl e
      | inr pil_image =>
        if image_mode_eqb (mode pil_image) RGBA
        then Image_convert i pil_image RGB
        else inr pil_image
      end
    end
  end.

Definition output_filename (t : PdfProcessingThread) (i : nat) : string :=
  ("page_" ++ Py.str_nat (i + 1) ++ "." ++ image_format t)%string.

Definition output_image_path (t : PdfProcessingThread) (i : nat) : string :=
  Py.os_path_join (output_directory t) (output_filename t i).

Definition error_detail (i : nat) (e_save : exn) : string :=
  ("Page " ++ Py.str_nat (i + 1) ++ ": " ++ exn_str e_save)%string.

(** Lines 56-81: one iteration of the page loop.  An exception raised in
    the handler of line 76 leaves the iteration like any other. *)
Definition convert_page (i : nat) : M unit :=
  requested <- check_interruption ;;
  if requested : bool then
    errs <- read page_save_errors ;;
    emit (finished_conversion "Conversion cancelled by user." false errs) ;;
    return_
  else
    t <- read self ;;
    perform (LoadPage i) ;;
    pil_image <- lift (page_image t i) ;;
    try_except
      (Image_save i pil_image (output_image_path t i) ;;
       n <- read converted_count ;;
       assign (set_converted_count (n + 1)))
      isinstance_Exception
      (fun e_save =>
         print i ("  Error saving " ++ error_detail i e_save) ;;
         errs <- read page_save_errors ;;
         assign (set_page_save_errors (errs ++ [error_detail i e_save]))) ;;
    emit (progress_update (i + 1)).

(** Lines 46-81: the body of the outer [try]. *)
Definition open_and_convert : M unit :=
  t <- read self ;;
  d <- lift (fitz_open W (input_pdf_path t)) ;;
  assign (set_doc (Some d)) ;;
  assign (set_total_pages (page_count d)) ;;
  n <- read total_pages ;;
  if (n =? 0)%nat then
    errs <- read page_save_errors ;;
    emit (finished_conversion
            "Error: The PDF file is empty or could not be read." false errs) ;;
    return_
  else
    emit (total_pages_known n) ;;
    for_each (range n) convert_page.

(** Lines 83-85. *)
Definition on_pdf_error (e_pdf : exn) : M unit :=
  errs <- read page_save_errors ;;
  emit (finished_conversion
          ("Error processing PDF with PyMuPDF: " ++ exn_str e_pdf)
          false errs) ;;
  return_.

(** [if doc:] a document has a length and no truth value of its own, so
    it is true when it has pages. *)
Definition truth (d : option Document) : bool :=
  match d with
  | Some d => negb (page_count d =? 0)%nat
  | None => false
  end.

(** Lines 86-88. *)
Definition close_doc : M unit :=
  d <- read doc ;;
  if truth d then perform Close else ret tt.

Definition success_message (t : PdfProcessingThread) (n : nat)
    (errs : list string) : string :=
  let msg := ("Successfully converted " ++ Py.str_nat n ++ " page(s) to '"
              ++ output_directory t ++ "'.")%string in
  match errs with
  | [] => msg
  | _ :: _ => (msg ++ Py.nl ++ "However, " ++ Py.str_nat (length errs)
               ++ " page(s) could not be saved.")%string
  end.

Definition no_pages_message (errs : list string) : string :=
  let msg := "No pages were successfully converted." in
  match errs with
  | [] => msg
  | _ :: _ => (msg ++ Py.nl ++ Py.str_nat (length errs)
               ++ " page(s) encountered errors during saving.")%string
  end.

(** Lines 90-102. *)
Definition report : M unit :=
  t <- read self ;;
  n <- read converted_count ;;
  errs <- read page_save_errors ;;
  total <- read total_pages ;;
  if (0 <? n)%nat then
    emit (finished_conversion (success_message t n errs) true errs)
  else
    live <- (if (0 <? total)%nat
             then requested <- check_interruption ;; ret (negb requested)
             else ret false) ;;
    if live : bool then
      emit (finished_conversion (no_pages_message errs) false errs)
    else
      requested <- check_interruption ;;
      if negb requested then
        emit (finished_conversion
                "No pages were processed or an error occurred." false errs)
      else ret tt.

(** What is left of [run] once the body of the outer [try] has ended:
    the handler, the [finally] block and the report. *)
Definition conclude (r : completion unit * frame) : completion unit * frame :=
  match finally close_doc (except isinstance_Exception on_pdf_error r) with
  | (Normal _, s) => report s
  | (Returned, s) => (Returned, s)
  | (Raised e, s) => (Raised e, s)
  end.

(** Lines 28-102. *)
Definition run : M unit :=
  assign (set_page_save_errors []) ;;
  t <- read self ;;
  found <- os_path_exists (input_pdf_path t) ;;
  if negb found then
    errs <- read page_save_errors ;;
    emit (finished_conversion
            ("Error: Input PDF file not found:" ++ Py.nl ++ input_pdf_path t)
            false errs) ;;
    return_
  else
    try_except (os_makedirs (output_directory t)) isinstance_OSError
      (fun e =>
         errs <- read page_save_errors ;;
         emit (finished_conversion
                 ("Error creating output directory '" ++ output_directory t
                  ++ "': " ++ exn_str e) false errs) ;;
         return_) ;;
    assign (set_converted_count 0) ;;
    assign (set_doc None) ;;
    try_except_finally open_and_convert isinstance_Exception on_pdf_error
      close_doc ;;
    report.

End Worker.

(** The trace of a whole run of thread [t] in world [W]. *)
Definition run_trace (W : world) (t : PdfProcessingThread) : list action :=
  trace (snd (run W (start t))).

Definition signal_of (a : action) : list signal :=
  match a with
  | Emit s => [s]
  | _ => []
  end.

(** The signals of a trace, in the order they were emitted. *)
Definition signals (tr : list action) : list signal :=
  flat_map signal_of tr.


Definition tick_of (a : action) : list nat :=
  match a with
  | Emit (progress_update n) => [n]
  | _ => []
  end.

(** The values of the [progress_update] signals of a trace. *)
Definition ticks (tr : list action) : list nat := flat_map tick_of tr.

Definition load_of (a : action) : list nat :=
  match a with
  | LoadPage i => [i]
  | _ => []
  end.

(** The pages whose processing was started, in order. *)
Definition loads (tr : list action) : list nat := flat_map load_of tr.

Definition save_of (a : action) : list (string * option exn) :=
  match a with
  | Save path _ failure => [(path, failure)]
  | _ => []
  end.

(** The calls of [save]: the path and how the call ended. *)
Definition save_attempts (tr : list action) : list (string * option exn) :=
  flat_map save_of tr.

Definition written_of (a : action) : list string :=
  match a with
  | Save path _ None => [path]
  | _ => []
  end.

(** The files written: the paths of the calls of [save] that returned. *)
Definition written (tr : list action) : list string :=
  flat_map written_of tr.

(** The image handed to the encoder is opaque. *)
Definition opaque_save (a : action) : bool :=
  match a with
  | Save _ im _ => image_mode_eqb (mode im) RGB
  | _ => true
  end.

(** Scanning a trace for a look at the flag in the middle of a page:
    a page is under way from its [LoadPage] to its [progress_update].
    [in_page_after] is where the scan stands at the end of the trace. *)
Fixpoint in_page_after (in_page : bool) (tr : list action) : bool :=
  match tr with
  | [] => in_page
  | LoadPage _ :: rest => in_page_after true rest
  | Emit (progress_update _) :: rest => in_page_after false rest
  | _ :: rest => in_page_after in_page rest
  end.

Fixpoint checks_between_pages (in_page : bool) (tr : list action) : bool :=
  match tr with
  | [] => true
  | LoadPage _ :: rest => checks_between_pages true rest
  | Emit (progress_update _) :: rest => checks_between_pages false rest
  | CheckInterruption _ :: rest =>
      negb in_page && checks_between_pages in_page rest
  | _ :: rest => checks_between_pages in_page rest
  end.


Definition is_finished (sg : signal) : bool :=
  match sg with
  | finished_conversion _ _ _ => true
  | _ => false
  end.

(** No [finished_conversion] among the signals. *)
Definition unfinished (sgs : list signal) : bool :=
  forallb (fun sg => negb (is_finished sg)) sgs.

(** The preconditions of lines 31-51 hold and the document has [P] pages. *)
Definition setup_ok (W : world) (t : PdfProcessingThread) (P : nat) : Prop :=
  path_exists W (input_pdf_path t) = true /\
  makedirs_error W (output_directory t) = None /\
  fitz_open W (input_pdf_path t) = inr (mk_Document P) /\
  P <> 0.

(** The frame in which the page loop is entered. *)
Definition loop_start (t : PdfProcessingThread) (P : nat) : frame :=
  {| self := t; page_save_errors := []; converted_count := 0;
     doc := Some (mk_Document P); total_pages := P; reads := 0;
     trace := [MakeDirs (output_directory t); Emit (total_pages_known P)] |}.

(** The frames at the boundaries of the page loop: [at_boundary W t k s]
    when the loop of a run of [t] in [W] stands before iteration [k] in
    frame [s], the [k] iterations before it having fallen through. *)
Inductive at_boundary (W : world) (t : PdfProcessingThread)
    : nat -> frame -> Prop :=
| boundary_first P :
    _is_interruption_requested t = false ->
    setup_ok W t P ->
    at_boundary W t 0 (loop_start t P)
| boundary_next k s s' :
    at_boundary W t k s ->
    k < total_pages s ->
    convert_page W k s = (Normal tt, s') ->
    at_boundary W t (S k) s'.

Definition failure_entry (W : world) (i : nat) : list string :=
  match save_error W i with
  | Some e => [error_detail i e]
  | None => []
  end.

(** The failure list after [k] pages. *)
Definition errors_upto (W : world) (k : nat) : list string :=
  flat_map (failure_entry W) (seq 0 k).

Definition saved (W : world) (i : nat) : bool :=
  match save_error W i with
  | Some _ => false
  | None => true
  end.

(** The exception that ends iteration [i] in the handler of line 76, if
    there is one: the [save] failed and the [print] of line 78 raised. *)
Definition print_fault (W : world) (i : nat) : option exn :=
  match save_error W i with
  | Some _ => print_error W i
  | None => None
  end.

(** The pages among the first [k] whose [save] fails, and the number of
    those whose [save] returns. *)
Definition failed_pages (W : world) (k : nat) : list nat :=
  filter (fun i => negb (saved W i)) (seq 0 k).

Definition converted_upto (W : world) (k : nat) : nat :=
  length (filter (saved W) (seq 0 k)).

(* ================================================================== *)
(** ** Frames, endings and invariants *)

Section Frames.

Variable W : world.

(** The frame after the look at the flag that opens an iteration. *)
Definition looked (requested : bool) (s : frame) : frame :=
  log (CheckInterruption requested)
      (set_reads (S (reads s))
         (set_self (if requested then request_interruption_sync (self s)
                    else self s) s)).

(** The ways an iteration ends, as frames: by the [return] of line 58, by
    an exception of lines 60-69, by an exception of the [print] of line 78,
    or by falling through. *)
Definition cancelled (s : frame) : frame :=
  log (Emit (finished_conversion "Conversion cancelled by user." false
               (page_save_errors s)))
      (looked true s).

Definition faulted (i : nat) (s : frame) : frame :=
  log (LoadPage i) (looked false s).

Definition print_faulted (i : nat) (im : Image) (e_save : exn) (s : frame)
    : frame :=
  log (Print ("  Error saving " ++ error_detail i e_save))
    (log (Save (output_image_path (self s) i) im (Some e_save))
       (faulted i s)).

Definition page_done (i : nat) (im : Image) (s : frame) : frame :=
  let path := output_image_path (self s) i in
  match save_error W i with
  | None =>
      log (Emit (progress_update (i + 1)))
        (set_converted_count (converted_count s + 1)
           (log (Save path im None) (faulted i s)))
  | Some e =>
      log (Emit (progress_update (i + 1)))
        (set_page_save_errors (page_save_errors s ++ [error_detail i e])
           (log (Print ("  Error saving " ++ error_detail i e))
              (log (Save path im (Some e)) (faulted i s))))
  end.

End Frames.

(** What an iteration that falls through adds to the trace. *)
Definition page_actions (W : world) (t : PdfProcessingThread) (i : nat)
    (im : Image) : list action :=
  CheckInterruption false :: LoadPage i ::
  Save (output_image_path t i) im (save_error W i) ::
  match save_error W i with
  | None => []
  | Some e => [Print ("  Error saving " ++ error_detail i e)]
  end ++ [Emit (progress_update (i + 1))].

(** Everything that holds of the frame [s] before iteration [k] of a run
    whose document has [P] pages. *)
Record boundary_facts (W : world) (t : PdfProcessingThread) (P k : nat)
    (s : frame) : Prop := {
  bf_setup : setup_ok W t P;
  bf_fresh : _is_interruption_requested t = false;
  bf_self : self s = t;
  bf_doc : doc s = Some (mk_Document P);
  bf_total : total_pages s = P;
  bf_le : k <= P;
  bf_reads : reads s = k;
  bf_converted : converted_count s = converted_upto W k;
  bf_errors : page_save_errors s = errors_upto W k;
  bf_signals :
    signals (trace s) = total_pages_known P :: map progress_update (seq 1 k);
  bf_loads : loads (trace s) = seq 0 k;
  bf_saves :
    save_attempts (trace s) =
    map (fun i => (output_image_path t i, save_error W i)) (seq 0 k);
  bf_written :
    written (trace s) =
    map (output_image_path t) (filter (saved W) (seq 0 k));
  bf_opaque : forallb opaque_save (trace s) = true;
  bf_checks : checks_between_pages false (trace s) = true;
  bf_between : in_page_after false (trace s) = false;
  bf_history : forall i, i < k ->
    shell_requests W i = false /\
    (exists im, page_image W t i = inr im) /\
    print_fault W i = None
}.

(** The last actions of a run that entered the page loop, after the
    boundary [k] in frame [s] at which the loop was left, and the way
    [run] completes: the loop was exhausted ([k = P]) and the report of
    lines 90-102 follows the [finally] block, or the loop was left at
    [k < P] by the [return] of line 58 or by an exception that the handler
    of line 83 turns into a [return]: one of lines 60-69, or one of the
    [print] of line 78 after a [save] that failed. *)
Inductive ending (W : world) (t : PdfProcessingThread) (P k : nat)
    (s : frame) : completion unit -> list action -> Prop :=
| end_success :
    k = P -> 0 < converted_count s ->
    ending W t P k s (Normal tt)
      [Close;
       Emit (finished_conversion
               (success_message t (converted_count s) (page_save_errors s))
               true (page_save_errors s))]
| end_no_pages :
    k = P -> converted_count s = 0 -> shell_requests W P = false ->
    ending W t P k s (Normal tt)
      [Close; CheckInterruption false;
       Emit (finished_conversion (no_pages_message (page_save_errors s))
               false (page_save_errors s))]
| end_silent :
    k = P -> converted_count s = 0 -> shell_requests W P = true ->
    ending W t P k s (Normal tt)
      [Close; CheckInterruption true; CheckInterruption true]
| end_cancelled :
    k < P -> shell_requests W k = true ->
    ending W t P k s Returned
      [CheckInterruption true;
       Emit (finished_conversion "Conversion cancelled by user." false
               (page_save_errors s));
       Close]
| end_fatal e :
    k < P -> shell_requests W k = false -> page_image W t k = inl e ->
    ending W t P k s Returned
      [CheckInterruption false; LoadPage k;
       Emit (finished_conversion
               ("Error processing PDF with PyMuPDF: " ++ exn_str e)
               false (page_save_errors s));
       Close]
| end_print_fatal im e_save e :
    k < P -> shell_requests W k = false -> page_image W t k = inr im ->
    save_error W k = Some e_save -> print_error W k = Some e ->
    ending W t P k s Returned
      [CheckInterruption false; LoadPage k;
       Save (output_image_path t k) im (Some e_save);
       Print ("  Error saving " ++ error_detail k e_save);
       Emit (finished_conversion
               ("Error processing PDF with PyMuPDF: " ++ exn_str e)
               false (page_save_errors s));
       Close].

(** The ways a run ends, with its trace.  The last one is the only one
    in which [run] raises: lines 36-41 are not inside the [try] of line 45,
    and their handler catches [OSError] only. *)
Inductive outcome (W : world) (t : PdfProcessingThread)
    : completion unit -> list action -> Prop :=
| out_not_found :
    path_exists W (input_pdf_path t) = false ->
    outcome W t Returned
      [Emit (finished_conversion
               ("Error: Input PDF file not found:" ++ Py.nl
                ++ input_pdf_path t) false [])]
| out_no_directory e :
    path_exists W (input_pdf_path t) = true ->
    makedirs_error W (output_directory t) = Some e ->
    isinstance_OSError e = true ->
    outcome W t Returned
      [MakeDirs (output_directory t);
       Emit (finished_conversion
               ("Error creating output directory '" ++ output_directory t
                ++ "': " ++ exn_str e) false [])]
| out_unreadable e :
    path_exists W (input_pdf_path t) = true ->
    makedirs_error W (output_directory t) = None ->
    fitz_open W (input_pdf_path t) = inl e ->
    outcome W t Returned
      [MakeDirs (output_directory t);
       Emit (finished_conversion
               ("Error processing PDF with PyMuPDF: " ++ exn_str e)
               false [])]
| out_empty :
    path_exists W (input_pdf_path t) = true ->
    makedirs_error W (output_directory t) = None ->
    fitz_open W (input_pdf_path t) = inr (mk_Document 0) ->
    outcome W t Returned
      [MakeDirs (output_directory t);
       Emit (finished_conversion
               "Error: The PDF file is empty or could not be read."
               false [])]
| out_pages P k s c tail :
    setup_ok W t P ->
    at_boundary W t k s ->
    ending W t P k s c tail ->
    outcome W t c (trace s ++ tail)
| out_raised e :
    path_exists W (input_pdf_path t) = true ->
    makedirs_error W (output_directory t) = Some e ->
    isinstance_OSError e = false ->
    outcome W t (Raised e) [MakeDirs (output_directory t)].

Definition failure_text (W : world) (i : nat) : string :=
  match save_error W i with
  | Some e => exn_str e
  | None => EmptyString
  end.

(** The entry of the failure list for page [i]. *)
Definition page_line (W : world) (i : nat) : string :=
  ("Page " ++ Py.str_nat (i + 1) ++ ": " ++ failure_text W i)%string.

(** The [k] pages before page [k] were attempted: at none of them was a
    request seen, each was rasterized, and none ended in the handler of
    line 76 by an exception of the [print]. *)
Definition history (W : world) (t : PdfProcessingThread) (k : nat) : Prop :=
  forall i, i < k ->
    shell_requests W i = false /\
    (exists im, page_image W t i = inr im) /\
    print_fault W i = None.

(** [os.makedirs] fails on the output directory of [t] with an [OSError],
    if it fails: what the handler of line 38 expects, and what the paths
    that the dialogs of the shell deliver provoke at most. *)
Definition makedirs_fails_with_OSError (W : world) (t : PdfProcessingThread)
    : Prop :=
  forall e, makedirs_error W (output_directory t) = Some e ->
            isinstance_OSError e = true.

(* ================================================================== *)
(** ** Sample worlds *)

Definition disk_full : exn := mk_exn OSError "No space left on device".
Definition bad_page : exn := mk_exn OtherException "cannot load page".

(** A document of [P] pages with transparent pixmaps, where [save] fails
    on the pages [unsaved], the rasterization raises on the pages
    [broken], and the shell's request becomes visible at the looks at the
    flag listed in [requests].  Every [print] returns, and text is
    lower-cased as [Py.lower] does it, which is what [str.lower] does to
    the formats of the samples. *)
Definition sample (P : nat) (unsaved broken requests : nat -> bool) : world :=
  {| str_lower := Py.lower;
     path_exists := fun _ => true;
     makedirs_error := fun _ => None;
     fitz_open := fun _ => inr (mk_Document P);
     load_page_error := fun i => if broken i then Some bad_page else None;
     get_pixmap := fun _ _ => inr (mk_Pixmap true 10 10);
     frombytes_error := fun _ => None;
     convert_error := fun _ => None;
     save_error := fun i => if unsaved i then Some disk_full else None;
     print_error := fun _ => None;
     shell_requests := requests |}.

Definition never (_ : nat) : bool := false.
Definition at_ (n i : nat) : bool := (i =? n)%nat.

(** The thread of the samples: its format is lower-cased as every sample
    world does it. *)
Definition sample_thread : PdfProcessingThread :=
  init (sample 1 never never never) "in.pdf" "out" 300 "PNG".

(** One page whose [save] fails, and a request of the shell that arrives
    while that page is being processed. *)
Definition late_interruption : world := sample 1 (at_ 0) never (at_ 1).

(** No source file. *)
Definition missing_source : world :=
  {| str_lower := Py.lower;
     path_exists := fun _ => false;
     makedirs_error := fun _ => None;
     fitz_open := fun _ => inr (mk_Document 1);
     load_page_error := fun _ => None;
     get_pixmap := fun _ _ => inr (mk_Pixmap false 10 10);
     frombytes_error := fun _ => None;
     convert_error := fun _ => None;
     save_error := fun _ => None;
     print_error := fun _ => None;
     shell_requests := never |}.

(** [os.makedirs] raises a [ValueError] on a path that holds a NUL
    character. *)
Definition embedded_null : exn := mk_exn OtherException "embedded null byte".

Definition has_null (p : string) : bool :=
  negb (Py.all_chars (fun c => negb (Ascii.eqb c Ascii.zero)) p).

(** One page and nothing that fails, except that [os.makedirs] rejects a
    path with a NUL character. *)
Definition null_rejected : world :=
  {| str_lower := Py.lower;
     path_exists := fun _ => true;
     makedirs_error := fun p => if has_null p then Some embedded_null else None;
     fitz_open := fun _ => inr (mk_Document 1);
     load_page_error := fun _ => None;
     get_pixmap := fun _ _ => inr (mk_Pixmap false 10 10);
     frombytes_error := fun _ => None;
     convert_error := fun _ => None;
     save_error := fun _ => None;
     print_error := fun _ => None;
     shell_requests := never |}.

(** The output directory ["out\x00x"]. *)
Definition null_directory : string := "out" ++ String Ascii.zero "x".

Definition null_thread : PdfProcessingThread :=
  init null_rejected "in.pdf" null_directory 300 "png".

(** [print] on a standard output that was closed raises a [ValueError]. *)
Definition closed_stdout : exn :=
  mk_exn OtherException "I/O operation on closed file.".

(** Two pages; the [save] of the first fails, and the [print] of line 78
    raises. *)
Definition unprintable : world :=
  {| str_lower := Py.lower;
     path_exists := fun _ => true;
     makedirs_error := fun _ => None;
     fitz_open := fun _ => inr (mk_Document 2);
     load_page_error := fun _ => None;
     get_pixmap := fun _ _ => inr (mk_Pixmap true 10 10);
     frombytes_error := fun _ => None;
     convert_error := fun _ => None;
     save_error := fun i => if at_ 0 i then Some disk_full else None;
     print_error := fun _ => Some closed_stdout;
     shell_requests := never |}.

(* ================================================================== *)
(** ** More observations of a trace *)

Definition is_close (a : action) : bool :=
  match a with
  | Close => true
  | _ => false
  end.

(** The number of calls of [doc.close()]. *)
Definition closes (tr : list action) : nat := length (filter is_close tr).

(** Work on a page: loading it, saving it, ticking it off. *)
Definition page_work (a : action) : bool :=
  match a with
  | LoadPage _ | Save _ _ _ | Emit (progress_update _) => true
  | _ => false
  end.

(** The document is never opened: a precondition fails before
    [fitz.open], or [fitz.open] raises. *)
Definition never_opened (W : world) (t : PdfProcessingThread) : Prop :=
  path_exists W (input_pdf_path t) = false \/
  (exists e, makedirs_error W (output_directory t) = Some e) \/
  (exists e, fitz_open W (input_pdf_path t) = inl e).

(* ================================================================== *)
(** ** The interactive shell *)

(** [PDFConverterApp] (lines 105-312), as far as the worker's signals
    and the two buttons drive it: the widgets are their properties, and
    the message boxes shown are logged in order. *)
Module Shell.

(** [needle in haystack] on [str]. *)
Fixpoint contains (needle haystack : string) : bool :=
  String.prefix needle haystack ||
  match haystack with
  | EmptyString => false
  | String _ rest => contains needle rest
  end.

Inductive box_kind : Type :=
| Warning
| Information
| Critical.

Record message_box : Type := mk_box {
  kind : box_kind;
  title : string;
  text : string
}.

(** A [QProgressBar]: a value outside the range is ignored, unless the
    range is (0, 0); a range that no longer holds the value resets it to
    one below the minimum.  Within the range [setValue] is an
    assignment. *)
Record QProgressBar : Type := mk_bar {
  minimum : Z;
  maximum : Z;
  value : Z;
  format : string
}.

Definition INT_MIN : Z := (-2147483648)%Z.

Definition new_bar : QProgressBar := mk_bar 0 100 (-1) "%p%".

Definition reset (b : QProgressBar) : QProgressBar :=
  mk_bar (minimum b) (maximum b)
         (if (minimum b =? INT_MIN)%Z then INT_MIN else (minimum b - 1)%Z)
         (format b).

Definition setRange (lo hi : Z) (b : QProgressBar) : QProgressBar :=
  if negb (lo =? minimum b)%Z || negb (hi =? maximum b)%Z then
    let b' := mk_bar lo (Z.max lo hi) (value b) (format b) in
    if (value b <? lo - 1)%Z || (maximum b' <? value b)%Z
    then reset b' else b'
  else b.

Definition setMaximum (hi : Z) (b : QProgressBar) : QProgressBar :=
  setRange (Z.min (minimum b) hi) hi b.

Definition setValue (v : Z) (b : QProgressBar) : QProgressBar :=
  if (value b =? v)%Z
     || (((maximum b <? v)%Z || (v <? minimum b)%Z)
         && (negb (maximum b =? 0)%Z || negb (minimum b =? 0)%Z))
  then b
  else mk_bar (minimum b) (maximum b) v (format b).

Definition setFormat (f : string) (b : QProgressBar) : QProgressBar :=
  mk_bar (minimum b) (maximum b) (value b) f.

(** The window: its attributes, the enabled state of the two buttons,
    the texts of the labels and of the status bar, the values of the two
    option widgets, and the message boxes shown so far. *)
Record PDFConverterApp : Type := mk_app {
  input_pdf_path : string;
  output_directory_path : string;
  processing_thread : option PdfProcessingThread;
  btn_start_conversion : bool;
  btn_cancel_conversion : bool;
  lbl_input_pdf : string;
  lbl_output_folder : string;
  spin_dpi : Z;
  combo_format : string;
  progress_bar : QProgressBar;
  status_bar : string;
  boxes : list message_box
}.

(** Line 173. *)
Definition combo_items : list string := ["png"; "jpg"; "jpeg"; "bmp"; "tiff"].

(** Lines 106-207: the window after [__init__]. *)
Definition setup_ui : PDFConverterApp :=
  {| input_pdf_path := "";
     output_directory_path := "";
     processing_thread := None;
     btn_start_conversion := true;
     btn_cancel_conversion := false;
     lbl_input_pdf := "No PDF selected";
     lbl_output_folder := "No folder selected";
     spin_dpi := 300;
     combo_format := "png";
     progress_bar := setValue 0 new_bar;
     status_bar := "Ready";
     boxes := [] |}.

Definition show (b : message_box) (u : PDFConverterApp) : PDFConverterApp :=
  mk_app (input_pdf_path u) (output_directory_path u) (processing_thread u)
         (btn_start_conversion u) (btn_cancel_conversion u)
         (lbl_input_pdf u) (lbl_output_folder u) (spin_dpi u)
         (combo_format u) (progress_bar u) (status_bar u) (boxes u ++ [b]).

Definition set_thread (t : option PdfProcessingThread) (u : PDFConverterApp)
    : PDFConverterApp :=
  mk_app (input_pdf_path u) (output_directory_path u) t
         (btn_start_conversion u) (btn_cancel_conversion u)
         (lbl_input_pdf u) (lbl_output_folder u) (spin_dpi u)
         (combo_format u) (progress_bar u) (status_bar u) (boxes u).

Definition set_start_enabled (e : bool) (u : PDFConverterApp)
    : PDFConverterApp :=
  mk_app (input_pdf_path u) (output_directory_path u) (processing_thread u)
         e (btn_cancel_conversion u)
         (lbl_input_pdf u) (lbl_output_folder u) (spin_dpi u)
         (combo_format u) (progress_bar u) (status_bar u) (boxes u).

Definition set_cancel_enabled (e : bool) (u : PDFConverterApp)
    : PDFConverterApp :=
  mk_app (input_pdf_path u) (output_directory_path u) (processing_thread u)
         (btn_start_conversion u) e
         (lbl_input_pdf u) (lbl_output_folder u) (spin_dpi u)
         (combo_format u) (progress_bar u) (status_bar u) (boxes u).

Definition set_bar (b : QProgressBar) (u : PDFConverterApp)
    : PDFConverterApp :=
  mk_app (input_pdf_path u) (output_directory_path u) (processing_thread u)
         (btn_start_conversion u) (btn_cancel_conversion u)
         (lbl_input_pdf u) (lbl_output_folder u) (spin_dpi u)
         (combo_format u) b (status_bar u) (boxes u).

Definition showMessage (m : string) (u : PDFConverterApp)
    : PDFConverterApp :=
  mk_app (input_pdf_path u) (output_directory_path u) (processing_thread u)
         (btn_start_conversion u) (btn_cancel_conversion u)
         (lbl_input_pdf u) (lbl_output_folder u) (spin_dpi u)
         (combo_format u) (progress_bar u) m (boxes u).

(** The thread that [start_conversion_process] constructs (lines
    246-251). *)
Definition new_thread (W : world) (u : PDFConverterApp)
    : PdfProcessingThread :=
  init W (input_pdf_path u) (output_directory_path u) (spin_dpi u)
       (combo_format u).

(** Lines 231-255, up to the start of the thread. *)
Definition start_conversion_process (W : world) (u : PDFConverterApp)
    : PDFConverterApp :=
  if (input_pdf_path u =? "")%string then
    show (mk_box Warning "Input Missing" "Please select an input PDF file.") u
  else if (output_directory_path u =? "")%string then
    show (mk_box Warning "Output Missing" "Please select an output folder.") u
  else
    let u := set_start_enabled false u in
    let u := set_cancel_enabled true u in
    let u := showMessage "Processing... Please wait." u in
    let u := set_bar (setValue 0 (progress_bar u)) u in
    let u := set_bar (setMaximum 0 (progress_bar u)) u in
    let u := set_bar (setFormat "Processing..." (progress_bar u)) u in
    set_thread (Some (new_thread W u)) u.

(** Lines 257-261; [is_running] is the answer of [isRunning()]. *)
Definition cancel_conversion_process (is_running : bool)
    (u : PDFConverterApp) : PDFConverterApp :=
  match processing_thread u with
  | Some t =>
      if is_running then
        let u := set_thread (Some (request_interruption_sync t)) u in
        let u := showMessage "Cancellation requested..." u in
        set_cancel_enabled false u
      else u
  | None => u
  end.

(** Lines 263-269. *)
Definition set_progress_bar_max (total_pages : nat) (u : PDFConverterApp)
    : PDFConverterApp :=
  if (0 <? total_pages)%nat then
    let u := set_bar (setMaximum (Z.of_nat total_pages) (progress_bar u)) u in
    set_bar (setFormat ("%v / " ++ Py.str_nat total_pages ++ " pages (%p%)")
               (progress_bar u)) u
  else
    let u := set_bar (setMaximum 1 (progress_bar u)) u in
    set_bar (setFormat "No pages to process." (progress_bar u)) u.

(** Lines 271-272. *)
Definition update_progress_bar (current_page : nat) (u : PDFConverterApp)
    : PDFConverterApp :=
  set_bar (setValue (Z.of_nat current_page) (progress_bar u)) u.

(** Lines 287-289. *)
Definition error_summary (page_save_errors : list string) : string :=
  let summary := ("Could not save the following pages:" ++ Py.nl
                  ++ String.concat Py.nl (firstn 5 page_save_errors))%string in
  if (5 <? length page_save_errors)%nat then
    (summary ++ Py.nl ++ "...and "
     ++ Py.str_nat (length page_save_errors - 5) ++ " more.")%string
  else summary.

(** Lines 274-297. *)
Definition on_conversion_finished (message : string) (success : bool)
    (page_save_errors : list string) (u : PDFConverterApp)
    : PDFConverterApp :=
  let u := showMessage message u in
  let u := set_start_enabled true u in
  let u := set_cancel_enabled false u in
  let bar := progress_bar u in
  let u :=
    if success && (value bar =? maximum bar)%Z && (0 <? maximum bar)%Z then
      set_bar (setFormat "Completed!" bar) u
    else if negb success && contains "cancelled" (Py.lower message) then
      set_bar (setFormat "Cancelled" bar) u
    else
      set_bar (setFormat "Finished with issues or no pages" bar) u in
  let u :=
    match page_save_errors with
    | [] => u
    | _ :: _ =>
        show (mk_box Warning "Page Saving Errors"
                (error_summary page_save_errors)) u
    end in
  let u :=
    if success then show (mk_box Information "Conversion Status" message) u
    else if negb (contains "cancelled" (Py.lower message)) then
      show (mk_box Critical "Conversion Error" message) u
    else u in
  set_thread None u.

(** Lines 252-254: the slot each signal is connected to. *)
Definition deliver (u : PDFConverterApp) (sg : signal) : PDFConverterApp :=
  match sg with
  | progress_update n => update_progress_bar n u
  | total_pages_known n => set_progress_bar_max n u
  | finished_conversion message success errs =>
      on_conversion_finished message success errs u
  end.

(** The window once it has handled, in the order they were emitted, the
    signals of the run that a click on Start launches in world [W]. *)
Definition after_run (W : world) (u : PDFConverterApp) : PDFConverterApp :=
  fold_left deliver (signals (run_trace W (new_thread W u)))
            (start_conversion_process W u).

(** The functions of [os.path] the two file dialogs use.  Nothing is
    assumed of them. *)
Record os_path : Type := mk_os_path {
  basename : string -> string;
  dirname : string -> string;
  splitext : string -> string * string
}.

Definition set_input (path label : string) (u : PDFConverterApp)
    : PDFConverterApp :=
  mk_app path (output_directory_path u) (processing_thread u)
         (btn_start_conversion u) (btn_cancel_conversion u)
         label (lbl_output_folder u) (spin_dpi u)
         (combo_format u) (progress_bar u) (status_bar u) (boxes u).

Definition set_output (path label : string) (u : PDFConverterApp)
    : PDFConverterApp :=
  mk_app (input_pdf_path u) path (processing_thread u)
         (btn_start_conversion u) (btn_cancel_conversion u)
         (lbl_input_pdf u) label (spin_dpi u)
         (combo_format u) (progress_bar u) (status_bar u) (boxes u).

(** Line 218: the folder suggested for the images of [file_name]. *)
Definition suggested_dir (os : os_path) (file_name : string) : string :=
  Py.os_path_join (dirname os file_name)
    (fst (splitext os (basename os file_name)) ++ "_images")%string.

(** Lines 209-220; [file_name] is what the file dialog returns, empty
    when the user dismisses it. *)
Definition select_input_pdf_dialog (os : os_path) (file_name : string)
    (u : PDFConverterApp) : PDFConverterApp :=
  if (file_name =? "")%string then u
  else
    let u := set_input file_name (basename os file_name) u in
    let u := showMessage ("Input PDF: " ++ basename os file_name) u in
    if (output_directory_path u =? "")%string then
      set_output (suggested_dir os file_name)
                 (basename os (suggested_dir os file_name)) u
    else u.

(** Lines 222-229; [dir_name] is what the folder dialog returns. *)
Definition select_output_folder_dialog (os : os_path) (dir_name : string)
    (u : PDFConverterApp) : PDFConverterApp :=
  if (dir_name =? "")%string then u
  else
    let u := set_output dir_name (basename os dir_name) u in
    showMessage ("Output Folder: " ++ basename os dir_name) u.

(** Both paths are chosen and the bar is as the shell leaves it: from 0
    up to a maximum that is not negative. *)
Definition ready (u : PDFConverterApp) : Prop :=
  input_pdf_path u <> "" /\ output_directory_path u <> "" /\
  minimum (progress_bar u) = 0%Z /\ (0 <= maximum (progress_bar u))%Z.

End Shell.

(** The window right after a click on Start when both paths are chosen. *)
Definition started (W : world) (u : Shell.PDFConverterApp)
    : Shell.PDFConverterApp :=
  Shell.mk_app (Shell.input_pdf_path u) (Shell.output_directory_path u)
    (Some (Shell.new_thread W u)) false true
    (Shell.lbl_input_pdf u) (Shell.lbl_output_folder u) (Shell.spin_dpi u)
    (Shell.combo_format u) (Shell.mk_bar 0 0 0 "Processing...")
    "Processing... Please wait." (Shell.boxes u).

(** The format of the bar once the page count is known (line 266). *)
Definition counting_format (P : nat) : string :=
  ("%v / " ++ Py.str_nat P ++ " pages (%p%)")%string.

(** The window after Start, the page count [P] and [k] ticks. *)
Definition counting (W : world) (u : Shell.PDFConverterApp) (P k : nat)
    : Shell.PDFConverterApp :=
  Shell.set_bar (Shell.mk_bar 0 (Z.of_nat P) (Z.of_nat k) (counting_format P))
    (started W u).

(** The warning of lines 286-290, when there is something to warn of. *)
Definition warning_of (errs : list string) : list Shell.message_box :=
  match errs with
  | [] => []
  | _ :: _ =>
      [Shell.mk_box Shell.Warning "Page Saving Errors"
         (Shell.error_summary errs)]
  end.

(** The window after the user has chosen "in.pdf" and the folder "out". *)
Definition sample_app : Shell.PDFConverterApp :=
  Shell.mk_app "in.pdf" "out" None true false "in.pdf" "out" 300 "png"
    (Shell.progress_bar Shell.setup_ui) "Output Folder: out" [].

(** The window when a run has ended and its outcome was presented: the
    bar stands at [k] of [P] with format [fmt], the status bar shows the
    summary, and [shown] are the boxes the run added. *)
Definition presented (u : Shell.PDFConverterApp) (P k : nat)
    (fmt summary : string) (shown : list Shell.message_box)
    : Shell.PDFConverterApp :=
  Shell.mk_app (Shell.input_pdf_path u) (Shell.output_directory_path u)
    None true false
    (Shell.lbl_input_pdf u) (Shell.lbl_output_folder u) (Shell.spin_dpi u)
    (Shell.combo_format u)
    (Shell.mk_bar 0 (Z.of_nat P) (Z.of_nat k) fmt)
    summary (Shell.boxes u ++ shown).

(** A stand-in for [os.path] on paths with one directory: ["a/b.pdf"]. *)
Definition sample_os_path : Shell.os_path :=
  Shell.mk_os_path (fun _ => "b.pdf") (fun _ => "a") (fun _ => ("b", ".pdf")).

(* ================================================================== *)
(** ** The packaging script *)

(** src/build.py: the arguments for PyInstaller, built when the module
    is loaded, and [build_executable]. *)
Module Build.

Definition APP_NAME : string := "PDFPageConverter".
Definition SCRIPT_FILE : string := "PDFtoImage.py".
Definition ICON_FILE : string := "icon.ico".
Definition OUTPUT_DIR : string := "dist".
Definition BUILD_DIR : string := "build".

Definition datas : list (string * string) := [].

Definition hidden_imports : list string :=
  ["PyQt6.sip"; "PyQt6.QtGui"; "PyQt6.QtCore"; "PyQt6.QtWidgets";
   "fitz"; "fitz.fitz"; "PIL"].

(** Lines 30-61; [icon_exists] is the answer of
    [os.path.exists(ICON_FILE)] when the module is loaded. *)
Definition pyinstaller_args (icon_exists : bool) : list string :=
  ["--name=" ++ APP_NAME; "--onefile"; "--windowed"; "--clean"]%string
  ++ (if negb (ICON_FILE =? "")%string && icon_exists
      then ["--icon=" ++ ICON_FILE]%string else [])
  ++ map (fun d => "--add-data=" ++ fst d ++ ":" ++ snd d)%string datas
  ++ map (fun h => "--hidden-import=" ++ h)%string hidden_imports
  ++ [SCRIPT_FILE].

(** The [code] of a [SystemExit]: nothing, an integer, or a text. *)
Inductive exit_code : Type :=
| NoCode
| IntCode (n : Z)
| TextCode (s : string).

(** What can be raised here: [SystemExit], which is no [Exception], or an
    [Exception] with its [str()]. *)
Inductive raised : Type :=
| SystemExit (code : exit_code)
| Error (text : string).

(** Which of the three paths the script looks at exist. *)
Record files : Type := mk_files {
  dist_exists : bool;
  build_exists : bool;
  spec_exists : bool
}.

(** The answers of the file system and of PyInstaller: what each
    removal raises, if it is called; what [PyInstaller.__main__.run]
    raises, and what exists when it is over. *)
Record world : Type := mk_world {
  icon_exists : bool;
  getcwd : string;
  rmtree_dist_error : option string;
  rmtree_build_error : option string;
  remove_spec_error : option string;
  run_raises : list string -> option raised;
  files_after_run : files;
  rmtree_build_error_after : option string;
  remove_spec_error_after : option string
}.

Inductive action : Type :=
| Print (line : string)
| Rmtree (path : string)
| Remove (path : string)
| Run (args : list string).

Record state : Type := mk_state {
  fs : files;
  log : list action
}.

Definition M (A : Type) : Type := state -> (raised + A) * state.

Definition ret {A} (a : A) : M A := fun s => (inr a, s).

Definition bind {A B} (m : M A) (k : A -> M B) : M B :=
  fun s =>
    match m s with
    | (inr a, s') => k a s'
    | (inl r, s') => (inl r, s')
    end.

Declare Scope build_scope.
Delimit Scope build_scope with build.
Notation "x <- c1 ;; c2" := (bind c1 (fun x => c2))
  (at level 61, c1 at next level, right associativity) : build_scope.
Notation "c1 ;; c2" := (bind c1 (fun _ => c2))
  (at level 61, right associativity) : build_scope.

Local Open Scope build_scope.

Definition perform (a : action) : M unit :=
  fun s => (inr tt, mk_state (fs s) (log s ++ [a])).

(** [print] is taken to return, and so is [os.getcwd] below: what is
    proved of the script is about the removals and the call of PyInstaller
    in a run whose console output works. *)
Definition print (line : string) : M unit := perform (Print line).

Definition raise_if {A} (failure : option string) (a : A) : M A :=
  fun s =>
    match failure with
    | Some text => (inl (Error text), s)
    | None => (inr a, s)
    end.

Definition set_files (f : files) : M unit :=
  fun s => (inr tt, mk_state f (log s)).

Definition spec_file : string := (APP_NAME ++ ".spec")%string.

(** [os.path.exists] on the paths of the script. *)
Definition os_path_exists (p : string) : M bool :=
  fun s =>
    (inr (if (p =? OUTPUT_DIR)%string then dist_exists (fs s)
          else if (p =? BUILD_DIR)%string then build_exists (fs s)
          else if (p =? spec_file)%string then spec_exists (fs s)
          else false), s).

Section Script.

Variable W : world.

Definition rmtree_dist : M unit :=
  perform (Rmtree OUTPUT_DIR) ;;
  raise_if (rmtree_dist_error W) tt ;;
  f <- (fun s => (inr (fs s), s)) ;;
  set_files (mk_files false (build_exists f) (spec_exists f)).

Definition rmtree_build (failure : option string) : M unit :=
  perform (Rmtree BUILD_DIR) ;;
  raise_if failure tt ;;
  f <- (fun s => (inr (fs s), s)) ;;
  set_files (mk_files (dist_exists f) false (spec_exists f)).

Definition remove_spec (failure : option string) : M unit :=
  perform (Remove spec_file) ;;
  raise_if failure tt ;;
  f <- (fun s => (inr (fs s), s)) ;;
  set_files (mk_files (dist_exists f) (build_exists f) false).

Definition PyInstaller_run (args : list string) : M unit :=
  perform (Run args) ;;
  set_files (files_after_run W) ;;
  match run_raises W args with
  | Some r => fun s => (inl r, s)
  | None => ret tt
  end.

(** [try: body except Exception as e: handler e]. *)
Definition try_except_Exception {A} (body : M A) (handler : string -> M A)
    : M A :=
  fun s =>
    match body s with
    | (inl (Error text), s') => handler text s'
    | r => r
    end.

Definition executable_path : string :=
  Py.os_path_join (Py.os_path_join (getcwd W) OUTPUT_DIR)
    (APP_NAME ++ ".exe")%string.

Definition str_code (c : exit_code) : string :=
  match c with
  | NoCode => "None"
  | IntCode n => NilZero.string_of_int (Z.to_int n)
  | TextCode s => s
  end.

(** [e.code == 0]. *)
Definition code_is_0 (c : exit_code) : bool :=
  match c with
  | IntCode n => (n =? 0)%Z
  | _ => false
  end.

(** Lines 70-99: the body of the [try]. *)
Definition build_body : M unit :=
  d <- os_path_exists OUTPUT_DIR ;;
  (if d : bool then
     print ("Removing previous output directory: " ++ OUTPUT_DIR ++ "...") ;;
     rmtree_dist
   else ret tt) ;;
  b <- os_path_exists BUILD_DIR ;;
  (if b : bool then
     print ("Removing previous build directory: " ++ BUILD_DIR ++ "...") ;;
     rmtree_build (rmtree_build_error W)
   else ret tt) ;;
  sp <- os_path_exists spec_file ;;
  (if sp : bool then
     print ("Removing previous .spec file: " ++ spec_file ++ "...") ;;
     remove_spec (remove_spec_error W)
   else ret tt) ;;
  PyInstaller_run (pyinstaller_args (icon_exists W)) ;;
  print (Py.nl ++ "Build process successful!") ;;
  print ("Executable created at: " ++ executable_path) ;;
  b <- os_path_exists BUILD_DIR ;;
  (if b : bool then
     print ("Cleaning up temporary build directory: " ++ BUILD_DIR ++ "...") ;;
     try_except_Exception (rmtree_build (rmtree_build_error_after W))
       (fun e =>
          print ("Warning: Could not completely clean up build directory: "
                 ++ e))
   else ret tt) ;;
  sp <- os_path_exists spec_file ;;
  (if sp : bool then
     print ("Cleaning up .spec file: " ++ spec_file ++ "...") ;;
     try_except_Exception (remove_spec (remove_spec_error_after W))
       (fun e => print ("Warning: Could not remove .spec file: " ++ e))
   else ret tt).

(** Lines 64-110. *)
Definition build_executable : M unit :=
  print ("Building '" ++ APP_NAME ++ ".exe' from source: '" ++ SCRIPT_FILE
         ++ "'...") ;;
  print ("PyInstaller arguments: "
         ++ String.concat " " (pyinstaller_args (icon_exists W))) ;;
  fun s =>
    match build_body s with
    | (inl (SystemExit code), s') =>
        (if code_is_0 code then
           print (Py.nl ++ "Build process successful (SystemExit code 0)!") ;;
           print ("Executable created at: " ++ executable_path)
         else
           print (Py.nl ++ "Build process failed (SystemExit)!") ;;
           print ("Error code: " ++ str_code code)) s'
    | (inl (Error text), s') =>
        (print (Py.nl ++ "Build process failed!") ;;
         print ("Error: " ++ text)) s'
    | r => r
    end.

End Script.

(** What a run of the script did, from the files [f]. *)
Definition build_log (W : world) (f : files) : list action :=
  log (snd (build_executable W (mk_state f []))).

Definition run_of (a : action) : list (list string) :=
  match a with
  | Run args => [args]
  | _ => []
  end.

(** The calls of PyInstaller, with their arguments. *)
Definition runs (l : list action) : list (list string) := flat_map run_of l.

(** The removals before the build all return: each path that exists is
    removed without an exception. *)
Definition clean_before_ok (W : world) (f : files) : bool :=
  (negb (dist_exists f) || match rmtree_dist_error W with
                           | None => true | Some _ => false end)
  && (negb (build_exists f) || match rmtree_build_error W with
                               | None => true | Some _ => false end)
  && (negb (spec_exists f) || match remove_spec_error W with
                              | None => true | Some _ => false end).

(** What the script did after it called PyInstaller. *)
Fixpoint after_run (l : list action) : list action :=
  match l with
  | [] => []
  | Run _ :: rest => rest
  | _ :: rest => after_run rest
  end.

Definition is_removal (a : action) : bool :=
  match a with
  | Rmtree _ | Remove _ => true
  | _ => false
  end.

(** The number of removals attempted after the build. *)
Definition tidied (l : list action) : nat :=
  length (filter is_removal (after_run l)).

End Build.

(* ================================================================== *)
(** ** One iteration of the page loop *)

Section Iteration.

Variable W : world.

Lemma convert_page_cancelled i s :
  shell_requests W (reads s) = true ->
  convert_page W i s = (Returned, cancelled s).
Proof.
  intros H. unfold convert_page, bind, check_interruption.
  rewrite H. reflexivity.
Qed.

Lemma convert_page_faulted i s e :
  _is_interruption_requested (self s) = false ->
  shell_requests W (reads s) = false ->
  page_image W (self s) i = inl e ->
  convert_page W i s = (Raised e, faulted i s).
Proof.
  intros Hf H Hi. unfold convert_page, bind, check_interruption.
  rewrite H, Hf. simpl. rewrite Hi. reflexivity.
Qed.

(** The [save] fails and the [print] in its handler raises: the
    exception of the [print] leaves the iteration, and the failure of the
    [save] is not in the list. *)
Lemma convert_page_print_faulted i s im e_save e :
  _is_interruption_requested (self s) = false ->
  shell_requests W (reads s) = false ->
  page_image W (self s) i = inr im ->
  save_error W i = Some e_save -> print_error W i = Some e ->
  convert_page W i s = (Raised e, print_faulted i im e_save s).
Proof.
  intros Hf H Hi Hs Hp.
  unfold convert_page, bind, check_interruption, print_faulted.
  rewrite H, Hf. simpl. rewrite Hi. simpl.
  unfold try_except, bind, Image_save, print, bind. simpl.
  rewrite Hs. simpl. rewrite Hp. reflexivity.
Qed.

Lemma convert_page_done i s im :
  _is_interruption_requested (self s) = false ->
  shell_requests W (reads s) = false ->
  page_image W (self s) i = inr im ->
  print_fault W i = None ->
  convert_page W i s = (Normal tt, page_done W i im s).
Proof.
  intros Hf H Hi Hp.
  unfold convert_page, bind, check_interruption, page_done.
  rewrite H, Hf. simpl. rewrite Hi. simpl.
  unfold try_except, bind, Image_save, print, bind. simpl.
  unfold print_fault in Hp.
  destruct (save_error W i); [|reflexivity].
  simpl. rewrite Hp. reflexivity.
Qed.

(** An iteration falls through only when the flag was clear, the page
    was rasterized and no [print] raised, and then the frame is
    [page_done]. *)
Lemma convert_page_normal i s s' :
  _is_interruption_requested (self s) = false ->
  convert_page W i s = (Normal tt, s') ->
  shell_requests W (reads s) = false /\
  print_fault W i = None /\
  exists im, page_image W (self s) i = inr im /\ s' = page_done W i im s.
Proof.
  intros Hf H.
  destruct (shell_requests W (reads s)) eqn:Hr.
  - rewrite (convert_page_cancelled i s Hr) in H. discriminate.
  - split; [reflexivity|].
    destruct (page_image W (self s) i) as [e|im] eqn:Hi.
    + rewrite (convert_page_faulted i s e Hf Hr Hi) in H. discriminate.
    + destruct (print_fault W i) as [e|] eqn:Hp.
      * unfold print_fault in Hp.
        destruct (save_error W i) as [e_save|] eqn:Hs; [|discriminate].
        rewrite (convert_page_print_faulted i s im e_save e Hf Hr Hi Hs Hp)
          in H.
        discriminate.
      * split; [reflexivity|].
        rewrite (convert_page_done i s im Hf Hr Hi Hp) in H.
        exists im. split; [reflexivity|]. congruence.
Qed.

End Iteration.

(* ================================================================== *)
(** ** Reading traces *)

Lemma signals_app tr tr' : signals (tr ++ tr') = signals tr ++ signals tr'.
Proof. apply flat_map_app. Qed.

Lemma ticks_app tr tr' : ticks (tr ++ tr') = ticks tr ++ ticks tr'.
Proof. apply flat_map_app. Qed.

Lemma loads_app tr tr' : loads (tr ++ tr') = loads tr ++ loads tr'.
Proof. apply flat_map_app. Qed.

Lemma save_attempts_app tr tr' :
  save_attempts (tr ++ tr') = save_attempts tr ++ save_attempts tr'.
Proof. apply flat_map_app. Qed.

Lemma written_app tr tr' : written (tr ++ tr') = written tr ++ written tr'.
Proof. apply flat_map_app. Qed.

Lemma in_page_after_app tr : forall b tr',
  in_page_after b (tr ++ tr') = in_page_after (in_page_after b tr) tr'.
Proof.
  induction tr as [|a tr IH]; intros b tr'; [reflexivity|].
  destruct a as [| | | | | |sg]; simpl; try apply IH.
  destruct sg; apply IH.
Qed.

Lemma checks_between_pages_app tr : forall b tr',
  checks_between_pages b (tr ++ tr') =
  checks_between_pages b tr && checks_between_pages (in_page_after b tr) tr'.
Proof.
  induction tr as [|a tr IH]; intros b tr'; [reflexivity|].
  destruct a as [| | | | | |sg]; simpl; try apply IH.
  - rewrite IH. apply andb_assoc.
  - destruct sg; apply IH.
Qed.

Lemma ticks_of_signals tr :
  ticks tr =
  flat_map (fun sg => match sg with progress_update n => [n] | _ => [] end)
           (signals tr).
Proof.
  induction tr as [|a tr IH]; [reflexivity|].
  destruct a as [| | | | | |sg]; simpl; try exact IH.
  rewrite IH. reflexivity.
Qed.

Lemma trace_page_done W i im s :
  trace (page_done W i im s) = trace s ++ page_actions W (self s) i im.
Proof.
  unfold page_done, page_actions.
  destruct (save_error W i); simpl; rewrite <- !app_assoc; reflexivity.
Qed.

Lemma errors_upto_S W k :
  errors_upto W (S k) = errors_upto W k ++ failure_entry W k.
Proof.
  unfold errors_upto. rewrite seq_S, flat_map_app. simpl.
  rewrite app_nil_r. reflexivity.
Qed.

Lemma converted_upto_S W k :
  converted_upto W (S k) =
  converted_upto W k + (if saved W k then 1 else 0).
Proof.
  unfold converted_upto. rewrite seq_S, filter_app, length_app. simpl.
  destruct (saved W k); reflexivity.
Qed.

Lemma failed_pages_S W k :
  failed_pages W (S k) =
  failed_pages W k ++ (if saved W k then [] else [k]).
Proof.
  unfold failed_pages. rewrite seq_S, filter_app. simpl.
  destruct (saved W k); reflexivity.
Qed.

Lemma setup_ok_unique W t P P' : setup_ok W t P -> setup_ok W t P' -> P = P'.
Proof.
  intros (_ & _ & H & _) (_ & _ & H' & _). congruence.
Qed.

(* ================================================================== *)
(** ** The loop invariant *)

Lemma page_image_opaque W t i im :
  page_image W t i = inr im -> mode im = RGB.
Proof.
  unfold page_image, Image_frombytes, Image_convert, raising.
  destruct (load_page_error W i); [discriminate|].
  destruct (get_pixmap W i (dpi t)) as [e|pix]; [discriminate|].
  destruct (alpha pix).
  - destruct (frombytes_error W i); [discriminate|]. simpl.
    destruct (convert_error W i); [discriminate|].
    intros H. injection H as <-. reflexivity.
  - destruct (frombytes_error W i); [discriminate|]. simpl.
    intros H. injection H as <-. reflexivity.
Qed.

Lemma boundary_facts_first W t P :
  _is_interruption_requested t = false -> setup_ok W t P ->
  boundary_facts W t P 0 (loop_start t P).
Proof.
  intros Hf Hs. constructor; try reflexivity; try assumption.
  - lia.
  - intros i Hi. lia.
Qed.

Lemma boundary_facts_next W t P k s s' :
  boundary_facts W t P k s -> k < total_pages s ->
  convert_page W k s = (Normal tt, s') ->
  boundary_facts W t P (S k) s'.
Proof.
  intros F Hk Hc.
  pose proof (bf_self _ _ _ _ _ F) as Hself.
  pose proof (bf_fresh _ _ _ _ _ F) as Hfresh.
  pose proof (bf_reads _ _ _ _ _ F) as Hreads.
  assert (Hflag : _is_interruption_requested (self s) = false)
    by (rewrite Hself; exact Hfresh).
  destruct (convert_page_normal W k s s' Hflag Hc)
    as (Hr & Hp & im & Hi & ->).
  rewrite Hreads in Hr. rewrite Hself in Hi.
  assert (Htr : trace (page_done W k im s) = trace s ++ page_actions W t k im)
    by (rewrite trace_page_done, Hself; reflexivity).
  constructor.
  - exact (bf_setup _ _ _ _ _ F).
  - exact Hfresh.
  - unfold page_done. destruct (save_error W k); simpl; exact Hself.
  - unfold page_done. destruct (save_error W k); simpl;
      exact (bf_doc _ _ _ _ _ F).
  - unfold page_done. destruct (save_error W k); simpl;
      exact (bf_total _ _ _ _ _ F).
  - rewrite (bf_total _ _ _ _ _ F) in Hk. lia.
  - unfold page_done. destruct (save_error W k); simpl; congruence.
  - rewrite converted_upto_S. unfold page_done, saved.
    destruct (save_error W k); simpl;
      rewrite (bf_converted _ _ _ _ _ F); lia.
  - rewrite errors_upto_S. unfold page_done, failure_entry.
    destruct (save_error W k); simpl;
      rewrite (bf_errors _ _ _ _ _ F); [reflexivity|].
    rewrite app_nil_r. reflexivity.
  - rewrite Htr, signals_app, (bf_signals _ _ _ _ _ F), seq_S, map_app.
    unfold page_actions. destruct (save_error W k); simpl;
      replace (k + 1) with (1 + k) by lia; reflexivity.
  - rewrite Htr, loads_app, (bf_loads _ _ _ _ _ F), seq_S.
    unfold page_actions. destruct (save_error W k); reflexivity.
  - rewrite Htr, save_attempts_app, (bf_saves _ _ _ _ _ F), seq_S, map_app.
    unfold page_actions. simpl. destruct (save_error W k); reflexivity.
  - rewrite Htr, written_app, (bf_written _ _ _ _ _ F), seq_S, filter_app,
      map_app.
    unfold page_actions, saved. simpl.
    destruct (save_error W k); reflexivity.
  - rewrite Htr, forallb_app, (bf_opaque _ _ _ _ _ F).
    unfold page_actions. simpl.
    rewrite (page_image_opaque W t k im Hi).
    destruct (save_error W k); reflexivity.
  - rewrite Htr, checks_between_pages_app, (bf_checks _ _ _ _ _ F),
      (bf_between _ _ _ _ _ F).
    unfold page_actions. destruct (save_error W k); reflexivity.
  - rewrite Htr, in_page_after_app, (bf_between _ _ _ _ _ F).
    unfold page_actions. destruct (save_error W k); reflexivity.
  - intros i Hi'. destruct (Nat.eq_dec i k) as [->|Hne].
    + split; [exact Hr|]. split; [exists im; exact Hi|exact Hp].
    + apply (bf_history _ _ _ _ _ F). lia.
Qed.

Lemma at_boundary_facts W t k s :
  at_boundary W t k s -> exists P, boundary_facts W t P k s.
Proof.
  induction 1 as [P Hf Hs|k s s' _ [P F] Hk Hc].
  - exists P. apply boundary_facts_first; assumption.
  - exists P. eapply boundary_facts_next; eassumption.
Qed.

(* ================================================================== *)
(** ** How a run ends *)

Lemma run_is_conclude W s :
  bind (try_except_finally (open_and_convert W) isinstance_Exception
          on_pdf_error close_doc) (fun _ => report W) s =
  conclude W (open_and_convert W s).
Proof. reflexivity. Qed.

Lemma conclude_exhausted W t P s :
  boundary_facts W t P P s ->
  exists c s' tail,
    conclude W (Normal tt, s) = (c, s') /\
    trace s' = trace s ++ tail /\
    ending W t P P s c tail.
Proof.
  intros F.
  destruct (bf_setup _ _ _ _ _ F) as (_ & _ & _ & HP).
  assert (HP' : (P =? 0)%nat = false) by (apply Nat.eqb_neq; exact HP).
  assert (HP'' : (0 <? P)%nat = true) by (apply Nat.ltb_lt; lia).
  unfold conclude, finally, except, close_doc, bind, read. simpl.
  rewrite (bf_doc _ _ _ _ _ F). simpl. rewrite HP'. simpl.
  unfold report, bind, read. simpl.
  destruct (0 <? converted_count s)%nat eqn:Hc.
  - eexists _, _, _. split; [reflexivity|]. split.
    + simpl. rewrite <- app_assoc. reflexivity.
    + rewrite (bf_self _ _ _ _ _ F). apply end_success; [reflexivity|].
      apply Nat.ltb_lt. exact Hc.
  - assert (Hc0 : converted_count s = 0)
      by (apply Nat.ltb_ge in Hc; lia).
    rewrite (bf_total _ _ _ _ _ F), HP''.
    unfold check_interruption. simpl.
    rewrite (bf_reads _ _ _ _ _ F), (bf_self _ _ _ _ _ F).
    destruct (shell_requests W P) eqn:Hr; simpl.
    + destruct (shell_requests W (S P)); simpl;
        (eexists _, _, _; split; [reflexivity|]; split;
         [simpl; rewrite <- !app_assoc; reflexivity
         |apply end_silent; [reflexivity|exact Hc0|exact Hr]]).
    + rewrite (bf_fresh _ _ _ _ _ F). simpl.
      eexists _, _, _. split; [reflexivity|]. split.
      * simpl. rewrite <- !app_assoc. reflexivity.
      * apply end_no_pages; [reflexivity|exact Hc0|exact Hr].
Qed.

Lemma conclude_cancelled W t P k s :
  boundary_facts W t P k s -> k < P ->
  shell_requests W k = true ->
  exists s' tail,
    conclude W (Returned, cancelled s) = (Returned, s') /\
    trace s' = trace s ++ tail /\
    ending W t P k s Returned tail.
Proof.
  intros F Hk Hr.
  destruct (bf_setup _ _ _ _ _ F) as (_ & _ & _ & HP).
  assert (HP' : (P =? 0)%nat = false) by (apply Nat.eqb_neq; exact HP).
  unfold conclude, finally, except, close_doc, bind, read. simpl.
  rewrite (bf_doc _ _ _ _ _ F). simpl. rewrite HP'. simpl.
  eexists _, _. split; [reflexivity|]. split.
  - simpl. rewrite <- !app_assoc. reflexivity.
  - apply end_cancelled; assumption.
Qed.

Lemma conclude_faulted W t P k s e :
  boundary_facts W t P k s -> k < P ->
  shell_requests W k = false -> page_image W t k = inl e ->
  exists s' tail,
    conclude W (Raised e, faulted k s) = (Returned, s') /\
    trace s' = trace s ++ tail /\
    ending W t P k s Returned tail.
Proof.
  intros F Hk Hr Hi.
  destruct (bf_setup _ _ _ _ _ F) as (_ & _ & _ & HP).
  assert (HP' : (P =? 0)%nat = false) by (apply Nat.eqb_neq; exact HP).
  unfold conclude, finally, except, on_pdf_error, close_doc, bind, read.
  simpl. rewrite (bf_doc _ _ _ _ _ F). simpl. rewrite HP'. simpl.
  eexists _, _. split; [reflexivity|]. split.
  - simpl. rewrite <- !app_assoc. reflexivity.
  - apply end_fatal; assumption.
Qed.

Lemma conclude_print_faulted W t P k s im e_save e :
  boundary_facts W t P k s -> k < P ->
  shell_requests W k = false -> page_image W t k = inr im ->
  save_error W k = Some e_save -> print_error W k = Some e ->
  exists s' tail,
    conclude W (Raised e, print_faulted k im e_save s) = (Returned, s') /\
    trace s' = trace s ++ tail /\
    ending W t P k s Returned tail.
Proof.
  intros F Hk Hr Hi Hs Hp.
  destruct (bf_setup _ _ _ _ _ F) as (_ & _ & _ & HP).
  assert (HP' : (P =? 0)%nat = false) by (apply Nat.eqb_neq; exact HP).
  unfold conclude, finally, except, on_pdf_error, close_doc, bind, read.
  simpl. rewrite (bf_doc _ _ _ _ _ F). simpl. rewrite HP'. simpl.
  eexists _, _. split; [reflexivity|]. split.
  - simpl. rewrite <- !app_assoc. rewrite (bf_self _ _ _ _ _ F). reflexivity.
  - eapply end_print_fatal; eassumption.
Qed.

(** From any boundary the rest of the run reaches one of the endings. *)
Lemma loop_from_boundary W t P : forall n k s,
  at_boundary W t k s -> boundary_facts W t P k s -> k + n = P ->
  exists k' s' c s'' tail,
    at_boundary W t k' s' /\
    ending W t P k' s' c tail /\
    conclude W (for_each (seq k n) (convert_page W) s) = (c, s'') /\
    trace s'' = trace s' ++ tail.
Proof.
  induction n as [|n IH]; intros k s B F Hn.
  - assert (k = P) by lia. subst k.
    destruct (conclude_exhausted W t P s F) as (c & s'' & tail & H1 & H2 & H3).
    exists P, s, c, s'', tail. simpl. auto.
  - assert (Hk : k < P) by lia.
    pose proof (bf_self _ _ _ _ _ F) as Hself.
    pose proof (bf_reads _ _ _ _ _ F) as Hreads.
    assert (Hflag : _is_interruption_requested (self s) = false)
      by (rewrite Hself; exact (bf_fresh _ _ _ _ _ F)).
    simpl. unfold bind at 1.
    destruct (shell_requests W k) eqn:Hr.
    + assert (Hr' : shell_requests W (reads s) = true)
        by (rewrite Hreads; exact Hr).
      rewrite (convert_page_cancelled W k s Hr').
      destruct (conclude_cancelled W t P k s F Hk Hr)
        as (s'' & tail & H1 & H2 & H3).
      exists k, s, Returned, s'', tail. auto.
    + assert (Hr' : shell_requests W (reads s) = false)
        by (rewrite Hreads; exact Hr).
      destruct (page_image W t k) as [e|im] eqn:Hi.
      * assert (Hi' : page_image W (self s) k = inl e)
          by (rewrite Hself; exact Hi).
        rewrite (convert_page_faulted W k s e Hflag Hr' Hi').
        destruct (conclude_faulted W t P k s e F Hk Hr Hi)
          as (s'' & tail & H1 & H2 & H3).
        exists k, s, Returned, s'', tail. auto.
      * assert (Hi' : page_image W (self s) k = inr im)
          by (rewrite Hself; exact Hi).
        destruct (print_fault W k) as [e|] eqn:Hp.
        -- unfold print_fault in Hp.
           destruct (save_error W k) as [e_save|] eqn:Hsv; [|discriminate].
           rewrite (convert_page_print_faulted W k s im e_save e
                      Hflag Hr' Hi' Hsv Hp).
           destruct (conclude_print_faulted W t P k s im e_save e
                       F Hk Hr Hi Hsv Hp)
             as (s'' & tail & H1 & H2 & H3).
           exists k, s, Returned, s'', tail. auto.
        -- assert (Hd : convert_page W k s = (Normal tt, page_done W k im s))
             by (apply convert_page_done; assumption).
           rewrite Hd.
           assert (Hlt : k < total_pages s)
             by (rewrite (bf_total _ _ _ _ _ F); exact Hk).
           apply (IH (S k) (page_done W k im s)).
           ++ eapply boundary_next; eassumption.
           ++ eapply boundary_facts_next; eassumption.
           ++ lia.
Qed.

(** Every run of a freshly constructed thread ends in one of the ways of
    [outcome]. *)
Lemma run_outcome W t :
  _is_interruption_requested t = false ->
  exists c s, run W (start t) = (c, s) /\ outcome W t c (trace s).
Proof.
  intros Hfresh.
  unfold run. unfold bind at 1. simpl.
  unfold bind at 1. simpl. unfold bind at 1. simpl.
  destruct (path_exists W (input_pdf_path t)) eqn:Hex; simpl.
  - unfold bind at 1, try_except, except, os_makedirs. simpl.
    unfold bind at 1. simpl.
    destruct (makedirs_error W (output_directory t)) as [e|] eqn:Hmk; simpl.
    + destruct (isinstance_OSError e) eqn:Hcl; simpl.
      * eexists _, _. split; [reflexivity|]. simpl.
        apply out_no_directory; assumption.
      * eexists _, _. split; [reflexivity|]. simpl.
        apply out_raised; assumption.
    + unfold bind at 1. simpl. unfold bind at 1. simpl.
      rewrite run_is_conclude.
      unfold open_and_convert. unfold bind at 1. simpl.
      unfold bind at 1. simpl.
      destruct (fitz_open W (input_pdf_path t)) as [e|[P]] eqn:Hop; simpl.
      * eexists _, _. split; [reflexivity|]. simpl.
        apply out_unreadable; assumption.
      * unfold bind at 1. simpl. unfold bind at 1. simpl.
        unfold bind at 1. simpl.
        destruct (P =? 0)%nat eqn:HP; simpl.
        -- apply Nat.eqb_eq in HP. subst P.
           eexists _, _. split; [reflexivity|]. simpl.
           apply out_empty; assumption.
        -- apply Nat.eqb_neq in HP.
           assert (Hs : setup_ok W t P) by (repeat split; assumption).
           unfold bind at 1. simpl.
           destruct (loop_from_boundary W t P P 0 (loop_start t P))
             as (k & s' & c & s'' & tail & B & E & Hc & Htr).
           ++ apply boundary_first; assumption.
           ++ apply boundary_facts_first; assumption.
           ++ reflexivity.
           ++ exists c, s''. split.
              ** unfold range. exact Hc.
              ** rewrite Htr. eapply out_pages; eassumption.
  - eexists _, _. split; [reflexivity|]. simpl.
    apply out_not_found. exact Hex.
Qed.

(* ================================================================== *)
(** ** Text: page numbers and file names *)


Lemma digits_of_uint d :
  Py.all_chars Py.is_digit (NilEmpty.string_of_uint d) = true.
Proof. induction d; simpl; try rewrite IHd; reflexivity. Qed.

Lemma str_nat_digits n : Py.all_chars Py.is_digit (Py.str_nat n) = true.
Proof.
  unfold Py.str_nat, NilZero.string_of_uint.
  destruct (Nat.to_uint n); try reflexivity; apply digits_of_uint.
Qed.

Lemma str_nat_inj n m : Py.str_nat n = Py.str_nat m -> n = m.
Proof.
  assert (R : forall d,
    option_map Nat.of_uint (NilZero.uint_of_string (NilZero.string_of_uint d))
    = Some (Nat.of_uint d)).
  { intros d. destruct d; try reflexivity;
      rewrite NilZero.usu by discriminate; reflexivity. }
  unfold Py.str_nat. intros H.
  pose proof (R (Nat.to_uint n)) as Hn.
  rewrite H, R, !DecimalNat.Unsigned.of_to in Hn. congruence.
Qed.

(** A run of digits is delimited by the first character that is none. *)
Lemma digits_then c : Py.is_digit c = false ->
  forall d1 d2 x y,
    Py.all_chars Py.is_digit d1 = true ->
    Py.all_chars Py.is_digit d2 = true ->
    (d1 ++ String c x = d2 ++ String c y)%string ->
    d1 = d2 /\ x = y.
Proof.
  intros Hc. induction d1 as [|a d1 IH]; intros [|b d2] x y H1 H2 H; simpl in *.
  - injection H as ->. auto.
  - injection H as -> _. apply andb_prop in H2. destruct H2. congruence.
  - injection H as -> _. apply andb_prop in H1. destruct H1. congruence.
  - injection H as -> H. apply andb_prop in H1, H2.
    destruct (IH d2 x y (proj2 H1) (proj2 H2) H) as [-> ->]. auto.
Qed.

Lemma page_number_inj c rest rest' i j :
  Py.is_digit c = false ->
  (Py.str_nat (i + 1) ++ String c rest
   = Py.str_nat (j + 1) ++ String c rest')%string ->
  i = j.
Proof.
  intros Hc H.
  apply (digits_then c Hc) in H; try apply str_nat_digits.
  destruct H as [H _]. apply str_nat_inj in H. lia.
Qed.

Lemma output_filename_inj t i j :
  output_filename t i = output_filename t j -> i = j.
Proof.
  unfold output_filename. simpl. intros H. injection H as H.
  exact (page_number_inj "." _ _ i j eq_refl H).
Qed.


Lemma page_line_inj W i j : page_line W i = page_line W j -> i = j.
Proof.
  unfold page_line. simpl. intros H. injection H as H.
  exact (page_number_inj ":" _ _ i j eq_refl H).
Qed.

Lemma errors_upto_map W k :
  errors_upto W k = map (page_line W) (failed_pages W k).
Proof.
  induction k as [|k IH]; [reflexivity|].
  rewrite errors_upto_S, failed_pages_S, map_app, IH.
  unfold failure_entry, saved.
  destruct (save_error W k) eqn:E; simpl; [|reflexivity].
  unfold page_line, failure_text. rewrite E. reflexivity.
Qed.

Lemma length_errors_upto W k :
  converted_upto W k + length (errors_upto W k) = k.
Proof.
  induction k as [|k IH]; [reflexivity|].
  rewrite errors_upto_S, converted_upto_S, length_app.
  unfold failure_entry, saved. destruct (save_error W k); simpl; lia.
Qed.

(** Counting one page among the selected pages below [k]. *)
Lemma count_occ_selected {B} (dec : forall x y : B, {x = y} + {x <> y})
    (f : nat -> B) (sel : nat -> bool) :
  (forall i j, f i = f j -> i = j) ->
  forall k i,
    count_occ dec (map f (filter sel (seq 0 k))) (f i) =
    if (i <? k)%nat && sel i then 1 else 0.
Proof.
  intros Hinj k i. induction k as [|k IH]; [reflexivity|].
  rewrite seq_S, filter_app, map_app, count_occ_app, IH. simpl.
  destruct (Nat.eq_dec i k) as [->|Hne].
  - replace (k <? k)%nat with false by (symmetry; apply Nat.ltb_ge; lia).
    replace (k <? S k)%nat with true by (symmetry; apply Nat.ltb_lt; lia).
    simpl. destruct (sel k); simpl; [|reflexivity].
    destruct (dec (f k) (f k)); [reflexivity|congruence].
  - assert (Hc : count_occ dec (map f (if sel k then [k] else [])) (f i) = 0).
    { destruct (sel k); simpl; [|reflexivity].
      destruct (dec (f k) (f i)) as [E|]; [|reflexivity].
      apply Hinj in E. congruence. }
    rewrite Hc, Nat.add_0_r.
    destruct (i <? k)%nat eqn:E1, (i <? S k)%nat eqn:E2; try reflexivity.
    + apply Nat.ltb_lt in E1. apply Nat.ltb_ge in E2. lia.
    + apply Nat.ltb_ge in E1. apply Nat.ltb_lt in E2. lia.
Qed.

Lemma failed_pages_sorted W k : StronglySorted lt (failed_pages W k).
Proof.
  induction k as [|k IH]; [constructor|].
  rewrite failed_pages_S. destruct (saved W k).
  - rewrite app_nil_r. exact IH.
  - assert (Hb : Forall (fun i => i < k) (failed_pages W k)).
    { apply Forall_forall. intros i Hi. unfold failed_pages in Hi.
      apply filter_In in Hi. destruct Hi as [Hi _].
      apply in_seq in Hi. lia. }
    clear -IH Hb. induction IH as [|a l Hl IHl Ha]; simpl.
    + repeat constructor.
    + apply Forall_cons_iff in Hb. destruct Hb as [Hak Hb].
      constructor; [exact (IHl Hb)|].
      apply Forall_app. split; [exact Ha|]. repeat constructor. exact Hak.
Qed.

(* ================================================================== *)
(** ** Runs that enter the page loop *)

Lemma init_is_fresh W input out dpi fmt :
  _is_interruption_requested (init W input out dpi fmt) = false.
Proof. reflexivity. Qed.

Lemma run_trace_outcome W t :
  _is_interruption_requested t = false ->
  exists c, fst (run W (start t)) = c /\ outcome W t c (run_trace W t).
Proof.
  intros Hf. destruct (run_outcome W t Hf) as (c & s & Hrun & Ho).
  exists c. unfold run_trace. rewrite Hrun. auto.
Qed.

(** When the preconditions hold, the run ends after a boundary of the
    loop in one of the ways of [ending]. *)
Lemma outcome_of_setup_ok W t P c tr :
  setup_ok W t P -> outcome W t c tr ->
  exists k s tail,
    boundary_facts W t P k s /\ ending W t P k s c tail /\
    tr = trace s ++ tail.
Proof.
  intros Hs Ho. pose proof Hs as (H1 & H2 & H3 & H4).
  destruct Ho as [Hex|e_os Hex Hmk Hcl|e Hex Hmk Hop|Hex Hmk Hop
      |P' k s c tail Hs' B E|e_mk Hex_mk Hmk_mk Hcl_mk];
    try congruence.
  assert (P' = P) by (eapply setup_ok_unique; eassumption). subst P'.
  destruct (at_boundary_facts W t k s B) as (P' & F).
  assert (P' = P)
    by (eapply setup_ok_unique; [exact (bf_setup _ _ _ _ _ F)|exact Hs]).
  subst P'. exists k, s, tail. auto.
Qed.

Lemma converted_upto_pos W k :
  (0 <? converted_upto W k)%nat = true <->
  exists i, i < k /\ save_error W i = None.
Proof.
  unfold converted_upto. split.
  - intros H. apply Nat.ltb_lt in H.
    destruct (filter (saved W) (seq 0 k)) as [|i l] eqn:E; [simpl in H; lia|].
    assert (Hi : In i (filter (saved W) (seq 0 k))) by (rewrite E; left; auto).
    apply filter_In in Hi. destruct Hi as [Hi Hsv]. apply in_seq in Hi.
    exists i. split; [lia|]. unfold saved in Hsv.
    destruct (save_error W i); [discriminate|reflexivity].
  - intros (i & Hi & Hsv). apply Nat.ltb_lt.
    assert (Hin : In i (filter (saved W) (seq 0 k))).
    { apply filter_In. split; [apply in_seq; lia|].
      unfold saved. rewrite Hsv. reflexivity. }
    destruct (filter (saved W) (seq 0 k)); [contradiction|simpl; lia].
Qed.

(** The boundary at which a run leaves the loop is the first page at
    which the shell's request is seen, the rasterization raises, or the
    [print] after a failed [save] raises. *)
Lemma history_before W t k j :
  history W t k ->
  (shell_requests W j = true \/ (exists e, page_image W t j = inl e) \/
   exists e, print_fault W j = Some e) ->
  k <= j.
Proof.
  intros Hh Hj. destruct (Nat.le_gt_cases k j) as [|Hlt]; [assumption|].
  destruct (Hh j Hlt) as (Hr & (im & Hi) & Hp).
  destruct Hj as [Hj|[(e & Hj)|(e & Hj)]]; congruence.
Qed.

Lemma print_fault_of W i e_save e :
  save_error W i = Some e_save -> print_error W i = Some e ->
  print_fault W i = Some e.
Proof. intros Hs Hp. unfold print_fault. rewrite Hs. exact Hp. Qed.

(** What the endings emit: nothing, or one [finished_conversion]. *)
Lemma ending_signals W t P k s c tail :
  ending W t P k s c tail ->
  signals tail = [] \/
  exists msg ok errs, signals tail = [finished_conversion msg ok errs].
Proof.
  intros E. destruct E; simpl; try (left; reflexivity);
    right; do 3 eexists; reflexivity.
Qed.

(** The endings add no tick, at most one call of [save], which fails, and
    no file. *)
Lemma ending_ticks W t P k s c tail :
  ending W t P k s c tail -> ticks tail = [].
Proof. intros E. destruct E; reflexivity. Qed.

Lemma ending_written W t P k s c tail :
  ending W t P k s c tail -> written tail = [].
Proof. intros E. destruct E; reflexivity. Qed.

Lemma ending_save_attempts W t P k s c tail :
  ending W t P k s c tail ->
  save_attempts tail = [] \/
  (k < P /\ save_attempts tail = [(output_image_path t k, save_error W k)] /\
   saved W k = false /\ exists e, print_fault W k = Some e).
Proof.
  intros E. destruct E; try (left; reflexivity).
  right. split; [assumption|]. simpl.
  match goal with H : save_error W k = Some _ |- _ => rewrite H end.
  split; [reflexivity|]. split.
  - unfold saved.
    match goal with H : save_error W k = Some _ |- _ => rewrite H end.
    reflexivity.
  - eexists. eapply print_fault_of; eassumption.
Qed.

Lemma ending_opaque W t P k s c tail :
  ending W t P k s c tail -> forallb opaque_save tail = true.
Proof.
  intros E. destruct E; try reflexivity. simpl.
  match goal with H : page_image W t k = inr _ |- _ =>
    rewrite (page_image_opaque W t k _ H) end.
  reflexivity.
Qed.

(* ================================================================== *)
(** ** The terminal signal *)

Lemma unfinished_progress P k :
  unfinished (total_pages_known P :: map progress_update (seq 1 k)) = true.
Proof.
  unfold unfinished. simpl. generalize 1.
  induction k as [|k IH]; intros a; simpl; [reflexivity|apply IH].
Qed.

Lemma unfinished_app l l' :
  unfinished (l ++ l') = unfinished l && unfinished l'.
Proof. apply forallb_app. Qed.

(** [finished_conversion] is emitted at most once, and nothing is
    emitted after it. *)
Lemma finished_last_and_at_most_once W t :
  _is_interruption_requested t = false ->
  exists before tail,
    signals (run_trace W t) = before ++ tail /\
    unfinished before = true /\
    (tail = [] \/
     exists msg ok errs, tail = [finished_conversion msg ok errs]).
Proof.
  intros Hf. destruct (run_trace_outcome W t Hf) as (c & _ & Ho).
  destruct Ho as [Hex|e_os Hex Hmk Hcl|e Hex Hmk Hop|Hex Hmk Hop
      |P k s c tail Hs B E|e_mk Hex_mk Hmk_mk Hcl_mk];
    try (exists []; eexists; split; [simpl; reflexivity|];
         split; [reflexivity|]; right; do 3 eexists; reflexivity).
  - destruct (at_boundary_facts W t k s B) as (P' & F).
    exists (signals (trace s)), (signals tail).
    split; [apply signals_app|]. split.
    + rewrite (bf_signals _ _ _ _ _ F). apply unfinished_progress.
    + exact (ending_signals W t P k s c tail E).
  - exists [], []. repeat split. left. reflexivity.
Qed.

(** When [os.makedirs] fails with an [OSError] if it fails, it is missing
    in one case only: the loop went through all the pages, no page was
    converted, and the shell's request became visible after the last look
    of the loop at the flag. *)
Lemma finished_missing_iff W t :
  _is_interruption_requested t = false ->
  makedirs_fails_with_OSError W t ->
  unfinished (signals (run_trace W t)) = true <->
  exists P,
    setup_ok W t P /\ history W t P /\
    converted_upto W P = 0 /\ shell_requests W P = true.
Proof.
  intros Hf Hos. destruct (run_trace_outcome W t Hf) as (c & _ & Ho). split.
  - intros Hu.
    destruct Ho as [Hex|e_os Hex Hmk Hcl|e Hex Hmk Hop|Hex Hmk Hop
        |P k s c tail Hs B E|e_mk Hex_mk Hmk_mk Hcl_mk];
      try discriminate;
      [|rewrite (Hos e_mk Hmk_mk) in Hcl_mk; discriminate].
    destruct (at_boundary_facts W t k s B) as (P' & F).
    assert (P' = P)
      by (eapply setup_ok_unique; [exact (bf_setup _ _ _ _ _ F)|exact Hs]).
    subst P'.
    rewrite signals_app, unfinished_app in Hu.
    apply andb_prop in Hu. destruct Hu as [_ Hu].
    destruct E as [-> Hc| -> Hc Hr| -> Hc Hr|Hk Hr|e Hk Hr Hi
        |im e_save e_pr Hk Hr Hi Hsv Hpr];
      try discriminate.
    exists P. split; [exact Hs|]. split; [exact (bf_history _ _ _ _ _ F)|].
    rewrite <- (bf_converted _ _ _ _ _ F). auto.
  - intros (P & Hs & Hh & Hc & Hr).
    destruct (outcome_of_setup_ok W t P c _ Hs Ho) as (k & s & tail & F & E & ->).
    rewrite signals_app, unfinished_app, (bf_signals _ _ _ _ _ F),
      unfinished_progress. simpl.
    destruct E as [-> Hc'| -> Hc' Hr'| -> Hc' Hr'|Hk Hr'|e Hk Hr' Hi
        |im e_save e_pr Hk Hr' Hi Hsv Hpr].
    + rewrite (bf_converted _ _ _ _ _ F) in Hc'. lia.
    + congruence.
    + reflexivity.
    + destruct (Hh k Hk) as [Hq _]. congruence.
    + destruct (Hh k Hk) as (_ & (im' & Him) & _). congruence.
    + destruct (Hh k Hk) as (_ & _ & Hp).
      rewrite (print_fault_of W k e_save e_pr Hsv Hpr) in Hp. discriminate.
Qed.

(* ================================================================== *)
(** ** The properties of the specification *)

(** What the report of lines 90-102 emits after a loop that went through
    all [P] pages, as long as a page was saved or no request of the shell
    is visible once the loop is over: one [finished_conversion] whose
    success flag tells whether some page was saved; the summary of a
    success names the number of pages converted and, when some pages were
    not saved, how many; with no page saved the summary is the "no pages"
    one and the failure list has all [P] pages. *)
Lemma exhausted_loop_reports W input out dpi fmt P :
  let t := init W input out dpi fmt in
  let n := converted_upto W P in
  let errs := errors_upto W P in
  setup_ok W t P -> history W t P ->
  (n = 0 -> shell_requests W P = false) ->
  exists msg,
    signals (run_trace W t) =
      total_pages_known P :: map progress_update (seq 1 P)
      ++ [finished_conversion msg (0 <? n)%nat errs] /\
    ((0 <? n)%nat = true <-> exists i, i < P /\ save_error W i = None) /\
    n + length errs = P /\
    (0 < n -> errs = [] ->
     msg = ("Successfully converted " ++ Py.str_nat n ++ " page(s) to '"
            ++ out ++ "'.")%string) /\
    (0 < n -> errs <> [] ->
     msg = (("Successfully converted " ++ Py.str_nat n ++ " page(s) to '"
             ++ out ++ "'.") ++ Py.nl ++ "However, "
            ++ Py.str_nat (length errs)
            ++ " page(s) could not be saved.")%string) /\
    (n = 0 ->
     msg = ("No pages were successfully converted." ++ Py.nl
            ++ Py.str_nat P
            ++ " page(s) encountered errors during saving.")%string).
Proof.
  intros t n errs Hs Hh Hlate.
  destruct (run_trace_outcome W t (init_is_fresh _ _ _ _ _)) as (c & _ & Ho).
  destruct (outcome_of_setup_ok W t P c _ Hs Ho) as (k & s & tail & F & E & ->).
  pose proof (length_errors_upto W P) as Hlen. fold n errs in Hlen.
  pose proof (converted_upto_pos W P) as Hpos. fold n in Hpos.
  destruct E as [-> Hc| -> Hc Hr| -> Hc Hr|Hk Hr|e Hk Hr Hi
      |im e_save e_pr Hk Hr Hi Hsv Hpr].
  - rewrite (bf_converted _ _ _ _ _ F) in Hc. fold n in Hc.
    rewrite (bf_converted _ _ _ _ _ F), (bf_errors _ _ _ _ _ F).
    fold n errs.
    exists (success_message t n errs).
    rewrite signals_app, (bf_signals _ _ _ _ _ F). simpl.
    assert (Hn : (0 <? n)%nat = true) by (apply Nat.ltb_lt; exact Hc).
    split; [rewrite Hn; reflexivity|]. split; [exact Hpos|].
    split; [exact Hlen|]. unfold success_message.
    split; [intros _ He; rewrite He; reflexivity|].
    split; [|intros H0; lia].
    intros _ Hne. destruct errs as [|x l]; [congruence|reflexivity].
  - rewrite (bf_converted _ _ _ _ _ F) in Hc. fold n in Hc.
    rewrite (bf_errors _ _ _ _ _ F). fold errs.
    exists (no_pages_message errs).
    rewrite signals_app, (bf_signals _ _ _ _ _ F). simpl.
    assert (Hn : (0 <? n)%nat = false) by (rewrite Hc; reflexivity).
    split; [rewrite Hn; reflexivity|]. split; [exact Hpos|].
    split; [exact Hlen|].
    split; [intros H0; lia|]. split; [intros H0; lia|].
    intros _. unfold no_pages_message.
    destruct (bf_setup _ _ _ _ _ F) as (_ & _ & _ & HP).
    destruct errs as [|x l]; [simpl in Hlen; lia|].
    replace (length (x :: l)) with P by lia. reflexivity.
  - rewrite (bf_converted _ _ _ _ _ F) in Hc. fold n in Hc.
    rewrite (Hlate Hc) in Hr. discriminate.
  - destruct (Hh k Hk) as [Hq _]. congruence.
  - destruct (Hh k Hk) as (_ & (im & Him) & _). congruence.
  - destruct (Hh k Hk) as (_ & _ & Hp).
    rewrite (print_fault_of W k e_save e_pr Hsv Hpr) in Hp. discriminate.
Qed.

(** C2.  In the run of [late_interruption] the document opens with one
    page, the loop sees no request and is left by no exception, so that it
    is exhausted and the page is ticked off; no page is saved, and the
    failure list has its one entry.  The specification asks such a run for
    the outcome "no pages converted" with that list; the run emits no
    [finished_conversion] at all, because the guard of line 96 reads the
    flag again, after the loop. *)
Theorem exhausted_loop_without_outcome :
  setup_ok late_interruption sample_thread 1 /\
  history late_interruption sample_thread 1 /\
  ticks (run_trace late_interruption sample_thread) = seq 1 1 /\
  loads (run_trace late_interruption sample_thread) = seq 0 1 /\
  converted_upto late_interruption 1 = 0 /\
  errors_upto late_interruption 1 = ["Page 1: No space left on device"] /\
  forall msg ok errs,
    ~ In (finished_conversion msg ok errs)
         (signals (run_trace late_interruption sample_thread)).
Proof.
  split; [repeat split; try reflexivity; discriminate|].
  split.
  { intros i Hi. assert (i = 0) by lia. subst i.
    split; [reflexivity|]. split; [eexists; reflexivity|reflexivity]. }
  repeat split; try reflexivity.
  intros msg ok errs [H|[H|[]]]; discriminate.
Qed.

(** C1.  In the run of [late_interruption] the single page is attempted
    and its [save] fails; the shell's request arrives after the only look
    of the loop at the flag, so the loop is exhausted, nothing was
    converted, both guards of lines 96 and 101 see the flag set, and [run]
    ends without a [finished_conversion]. *)
Theorem finished_missing_on_late_interruption :
  run_trace late_interruption sample_thread =
    [MakeDirs "out"; Emit (total_pages_known 1);
     CheckInterruption false; LoadPage 0;
     Save "out/page_1.png" (mk_Image RGB (10, 10)) (Some disk_full);
     Print "  Error saving Page 1: No space left on device";
     Emit (progress_update 1); Close;
     CheckInterruption true; CheckInterruption true] /\
  signals (run_trace late_interruption sample_thread) =
    [total_pages_known 1; progress_update 1] /\
  fst (run late_interruption (start sample_thread)) = Normal tt.
Proof. repeat split; reflexivity. Qed.

Lemma checks_only_between_pages W t :
  _is_interruption_requested t = false ->
  checks_between_pages false (run_trace W t) = true.
Proof.
  intros Hf. destruct (run_trace_outcome W t Hf) as (c & _ & Ho).
  destruct Ho as [Hex|e_os Hex Hmk Hcl|e Hex Hmk Hop|Hex Hmk Hop
      |P k s c tail Hs B E|e_mk Hex_mk Hmk_mk Hcl_mk];
    try reflexivity.
  destruct (at_boundary_facts W t k s B) as (P' & F).
  rewrite checks_between_pages_app, (bf_checks _ _ _ _ _ F),
    (bf_between _ _ _ _ _ F).
  destruct E; reflexivity.
Qed.

(** A run that sees the request at the look before page [k]. *)
Lemma cancelled_run W t P k :
  _is_interruption_requested t = false ->
  setup_ok W t P -> k < P -> history W t k -> shell_requests W k = true ->
  exists s,
    boundary_facts W t P k s /\
    run_trace W t =
      trace s ++ [CheckInterruption true;
                  Emit (finished_conversion "Conversion cancelled by user."
                          false (page_save_errors s));
                  Close].
Proof.
  intros Hf Hs Hk Hh Hreq.
  destruct (run_trace_outcome W t Hf) as (c & _ & Ho).
  destruct (outcome_of_setup_ok W t P c _ Hs Ho) as (k' & s & tail & F & E & ->).
  pose proof (bf_history _ _ _ _ _ F) as Hh'.
  assert (Hle : k' <= k) by (apply (history_before W t k' k Hh'); auto).
  destruct E as [-> Hc| -> Hc Hr| -> Hc Hr|Hk' Hr|e Hk' Hr Hi
      |im e_save e_pr Hk' Hr Hi Hsv Hpr]; try lia.
  - assert (k <= k') by (apply (history_before W t k k' Hh); auto).
    assert (k' = k) by lia. subst k'. exists s. auto.
  - assert (k <= k') by (apply (history_before W t k k' Hh); eauto).
    assert (k' = k) by lia. subst k'. congruence.
  - assert (k <= k').
    { apply (history_before W t k k' Hh). right. right.
      eexists. eapply print_fault_of; eassumption. }
    assert (k' = k) by lia. subst k'. congruence.
Qed.

(** C3.  The flag is looked at between pages only, never from the
    [LoadPage] of a page to its [progress_update]; and when the look
    before page [k] (after [k] pages attempted) finds it set, the run
    ends there: no page is loaded any more, the ticks are 1..k, and the
    last signal is the cancellation outcome with the failures so far. *)
Theorem cancellation_at_loop_boundary W input out dpi fmt :
  let t := init W input out dpi fmt in
  checks_between_pages false (run_trace W t) = true /\
  forall P k,
    setup_ok W t P -> k < P -> history W t k -> shell_requests W k = true ->
    signals (run_trace W t) =
      total_pages_known P :: map progress_update (seq 1 k)
      ++ [finished_conversion "Conversion cancelled by user." false
            (errors_upto W k)] /\
    ticks (run_trace W t) = seq 1 k /\
    loads (run_trace W t) = seq 0 k /\
    exists before,
      run_trace W t =
        before ++ [CheckInterruption true;
                   Emit (finished_conversion "Conversion cancelled by user."
                           false (errors_upto W k));
                   Close].
Proof.
  intros t. split; [apply checks_only_between_pages; reflexivity|].
  intros P k Hs Hk Hh Hreq.
  destruct (cancelled_run W t P k (init_is_fresh _ _ _ _ _) Hs Hk Hh Hreq)
    as (s & F & Htr).
  rewrite <- (bf_errors _ _ _ _ _ F).
  assert (Hsig : signals (run_trace W t) =
            total_pages_known P :: map progress_update (seq 1 k)
            ++ [finished_conversion "Conversion cancelled by user." false
                  (page_save_errors s)]).
  { rewrite Htr, signals_app, (bf_signals _ _ _ _ _ F). reflexivity. }
  split; [exact Hsig|]. split.
  { rewrite ticks_of_signals, Hsig. simpl. rewrite flat_map_app. simpl.
    rewrite app_nil_r. clear. generalize 1.
    induction k as [|k IH]; intros a; simpl; [reflexivity|].
    rewrite IH. reflexivity. }
  split.
  { rewrite Htr, loads_app, (bf_loads _ _ _ _ _ F). simpl.
    apply app_nil_r. }
  exists (trace s). exact Htr.
Qed.

Lemma cancellation_at_loop_boundary_witness :
  signals (run_trace (sample 3 (at_ 0) never (at_ 1)) sample_thread) =
    [total_pages_known 3; progress_update 1;
     finished_conversion "Conversion cancelled by user." false
       ["Page 1: No space left on device"]].
Proof.
  destruct (cancellation_at_loop_boundary (sample 3 (at_ 0) never (at_ 1))
              "in.pdf" "out" 300 "PNG") as [_ H].
  destruct (H 3 1) as [Hsig _].
  - repeat split; try reflexivity. discriminate.
  - lia.
  - intros i Hi. assert (i = 0) by lia. subst i.
    split; [reflexivity|]. split; [eexists; reflexivity|reflexivity].
  - reflexivity.
  - exact Hsig.
Defined.

(** The three setup errors, as long as [os.makedirs] fails with an
    [OSError]: the only signal of the run is a [finished_conversion] with
    success flag false and an empty failure list, no page is loaded and no
    file is saved. *)
Lemma setup_errors_reported W input out dpi fmt :
  let t := init W input out dpi fmt in
  let fails msg :=
    signals (run_trace W t) = [finished_conversion msg false []] /\
    loads (run_trace W t) = [] /\ save_attempts (run_trace W t) = [] in
  (path_exists W input = false ->
   fails ("Error: Input PDF file not found:" ++ Py.nl ++ input)%string) /\
  (forall e,
     path_exists W input = true -> makedirs_error W out = Some e ->
     isinstance_OSError e = true ->
     fails ("Error creating output directory '" ++ out ++ "': "
            ++ exn_str e)%string) /\
  (path_exists W input = true -> makedirs_error W out = None ->
   fitz_open W input = inr (mk_Document 0) ->
   fails "Error: The PDF file is empty or could not be read.").
Proof.
  intros t fails. unfold fails.
  destruct (run_trace_outcome W t (init_is_fresh _ _ _ _ _)) as (c & _ & Ho).
  assert (Hin : input_pdf_path t = input) by reflexivity.
  assert (Hout : output_directory t = out) by reflexivity.
  split; [|split].
  - intros Hex'.
    destruct Ho as [Hex|e_os Hex Hmk Hcl|e Hex Hmk Hop|Hex Hmk Hop
                   |P k s c tail (H1 & H2 & H3 & H4) B E|e_mk Hex Hmk Hcl];
      rewrite ?Hin, ?Hout in *; try (exfalso; congruence).
    repeat split; reflexivity.
  - intros e Hex' Hmk' Hcl'.
    destruct Ho as [Hex|e_os Hex Hmk Hcl|e' Hex Hmk Hop|Hex Hmk Hop
                   |P k s c tail (H1 & H2 & H3 & H4) B E|e_mk Hex Hmk Hcl];
      rewrite ?Hin, ?Hout in *; try (exfalso; congruence).
    replace e_os with e by congruence. repeat split; reflexivity.
  - intros Hex' Hmk' Hop'.
    destruct Ho as [Hex|e_os Hex Hmk Hcl|e' Hex Hmk Hop|Hex Hmk Hop
                   |P k s c tail (H1 & H2 & H3 & H4) B E|e_mk Hex Hmk Hcl];
      rewrite ?Hin, ?Hout in *; try (exfalso; congruence).
    repeat split; reflexivity.
Qed.

(** C5.  The destination directory ["out\x00x"] cannot be created:
    [os.makedirs] raises a [ValueError], which is no [OSError].  The
    specification asks for an outcome with success flag false; the handler of
    line 38 does not catch the exception, and the run ends after the call
    of [os.makedirs] without any signal. *)
Theorem no_outcome_when_directory_is_rejected :
  path_exists null_rejected (input_pdf_path null_thread) = true /\
  makedirs_error null_rejected (output_directory null_thread)
    = Some embedded_null /\
  run_trace null_rejected null_thread = [MakeDirs null_directory] /\
  signals (run_trace null_rejected null_thread) = [].
Proof. repeat split; reflexivity. Qed.

Lemma ticks_of_progress a k O :
  flat_map (fun sg => match sg with progress_update n => [n] | _ => [] end)
           (map progress_update (seq a k) ++ O) =
  seq a k ++
  flat_map (fun sg => match sg with progress_update n => [n] | _ => [] end) O.
Proof.
  revert a. induction k as [|k IH]; intros a; simpl; [reflexivity|].
  rewrite IH. reflexivity.
Qed.

(** C6.  When the document opens with [P >= 1] pages, the signals of the
    run are [total_pages_known P], then the ticks 1, 2, ..., k for some
    [k <= P], then at most one [finished_conversion] and nothing else; the
    pages attempted, each with one call of [save] that returned or whose
    failure was recorded, are exactly the pages 0..k-1.  The only other
    call of [save] a run can make is a last one for page [k] that fails and
    whose [print] raises: that page is not ticked off. *)
Theorem progress_signals_in_sequence W input out dpi fmt P :
  let t := init W input out dpi fmt in
  setup_ok W t P ->
  exists k tail,
    k <= P /\
    signals (run_trace W t) =
      total_pages_known P :: map progress_update (seq 1 k) ++ tail /\
    (tail = [] \/
     exists msg ok errs, tail = [finished_conversion msg ok errs]) /\
    ticks (run_trace W t) = seq 1 k /\
    (exists rest,
       save_attempts (run_trace W t) =
         map (fun i => (output_image_path t i, save_error W i)) (seq 0 k)
         ++ rest /\
       (rest = [] \/
        (k < P /\ rest = [(output_image_path t k, save_error W k)] /\
         saved W k = false /\ exists e, print_fault W k = Some e))) /\
    converted_upto W k + length (errors_upto W k) = k.
Proof.
  intros t Hs.
  destruct (run_trace_outcome W t (init_is_fresh _ _ _ _ _)) as (c & _ & Ho).
  destruct (outcome_of_setup_ok W t P c _ Hs Ho) as (k & s & tail & F & E & Htr).
  exists k, (signals tail).
  assert (Hsig : signals (run_trace W t) =
            total_pages_known P :: map progress_update (seq 1 k)
            ++ signals tail).
  { rewrite Htr, signals_app, (bf_signals _ _ _ _ _ F). reflexivity. }
  pose proof (ending_signals W t P k s c tail E) as Htail.
  split; [exact (bf_le _ _ _ _ _ F)|].
  split; [exact Hsig|]. split; [exact Htail|]. split.
  { rewrite ticks_of_signals, Hsig. simpl. rewrite ticks_of_progress.
    destruct Htail as [->|(msg & ok & errs & ->)]; simpl; apply app_nil_r. }
  split; [|apply length_errors_upto].
  exists (save_attempts tail). split.
  - rewrite Htr, save_attempts_app, (bf_saves _ _ _ _ _ F). reflexivity.
  - destruct (ending_save_attempts W t P k s c tail E) as [H|(Hk & H & H')];
      [left; exact H|right; auto].
Qed.

Lemma progress_signals_in_sequence_witness :
  exists k tail,
    k <= 2 /\
    signals (run_trace (sample 2 (at_ 1) never never) sample_thread) =
      total_pages_known 2 :: map progress_update (seq 1 k) ++ tail.
Proof.
  destruct (progress_signals_in_sequence (sample 2 (at_ 1) never never)
              "in.pdf" "out" 300 "PNG" 2) as (k & tail & Hk & H & _).
  - repeat split; try reflexivity. discriminate.
  - exists k, tail. split; assumption.
Defined.

(** A run in which the rasterization of page [k] raises. *)
Lemma faulted_run W t P k e :
  _is_interruption_requested t = false ->
  setup_ok W t P -> k < P -> history W t k ->
  shell_requests W k = false -> page_image W t k = inl e ->
  exists s,
    boundary_facts W t P k s /\
    run_trace W t =
      trace s ++ [CheckInterruption false; LoadPage k;
                  Emit (finished_conversion
                          ("Error processing PDF with PyMuPDF: " ++ exn_str e)
                          false (page_save_errors s));
                  Close].
Proof.
  intros Hf Hs Hk Hh Hreq Hfault.
  destruct (run_trace_outcome W t Hf) as (c & _ & Ho).
  destruct (outcome_of_setup_ok W t P c _ Hs Ho) as (k' & s & tail & F & E & ->).
  pose proof (bf_history _ _ _ _ _ F) as Hh'.
  assert (Hle : k' <= k) by (apply (history_before W t k' k Hh'); eauto).
  destruct E as [-> Hc| -> Hc Hr| -> Hc Hr|Hk' Hr|e' Hk' Hr Hi
      |im e_save e_pr Hk' Hr Hi Hsv Hpr]; try lia.
  - assert (k <= k') by (apply (history_before W t k k' Hh); auto).
    assert (k' = k) by lia. subst k'. congruence.
  - assert (k <= k') by (apply (history_before W t k k' Hh); eauto).
    assert (k' = k) by lia. subst k'.
    assert (e' = e) by congruence. subst e'. exists s. auto.
  - assert (k <= k').
    { apply (history_before W t k k' Hh). right. right.
      eexists. eapply print_fault_of; eassumption. }
    assert (k' = k) by lia. subst k'. congruence.
Qed.

(** [run] raises in one case only: [os.makedirs] raises an exception that
    is no [OSError]. *)
Lemma run_raises_only_from_makedirs W input out dpi fmt e :
  let t := init W input out dpi fmt in
  fst (run W (start t)) = Raised e <->
  path_exists W input = true /\ makedirs_error W out = Some e /\
  isinstance_OSError e = false.
Proof.
  intros t.
  assert (Hin : input_pdf_path t = input) by reflexivity.
  assert (Hout : output_directory t = out) by reflexivity.
  destruct (run_trace_outcome W t (init_is_fresh _ _ _ _ _)) as (c & Hc & Ho).
  rewrite Hc. split.
  - intros Hr. rewrite <- Hin, <- Hout.
    destruct Ho as [| | | |P k s c tail Hs B E|e' Hex Hmk Hcl];
      try discriminate.
    + destruct E; discriminate.
    + injection Hr as ->. auto.
  - intros (Hex' & Hmk' & Hcl').
    destruct Ho as [Hex|e_os Hex Hmk Hcl|e' Hex Hmk Hop|Hex Hmk Hop
                   |P k s c tail (H1 & H2 & H3 & H4) B E|e_mk Hex Hmk Hcl];
      rewrite ?Hin, ?Hout in *; try (exfalso; congruence).
    congruence.
Qed.

(** An [OSError] of [os.makedirs], an exception of [fitz.open] and an
    exception raised while page [k] is loaded and rasterized each end the
    run with a [finished_conversion] whose success flag is false and whose
    summary carries the text of the exception; in the last case page [k]
    is the last page loaded and the outcome carries the failures recorded
    for the pages before it. *)
Lemma exceptions_become_outcomes W input out dpi fmt :
  let t := init W input out dpi fmt in
  (forall e,
     path_exists W input = true -> makedirs_error W out = Some e ->
     isinstance_OSError e = true ->
     signals (run_trace W t) =
       [finished_conversion
          ("Error creating output directory '" ++ out ++ "': " ++ exn_str e)
          false []]) /\
  (forall e,
     path_exists W input = true -> makedirs_error W out = None ->
     fitz_open W input = inl e ->
     signals (run_trace W t) =
       [finished_conversion
          ("Error processing PDF with PyMuPDF: " ++ exn_str e) false []]) /\
  (forall P k e,
     setup_ok W t P -> k < P -> history W t k ->
     shell_requests W k = false -> page_image W t k = inl e ->
     signals (run_trace W t) =
       total_pages_known P :: map progress_update (seq 1 k)
       ++ [finished_conversion
             ("Error processing PDF with PyMuPDF: " ++ exn_str e) false
             (errors_upto W k)] /\
     loads (run_trace W t) = seq 0 (S k)).
Proof.
  intros t.
  assert (Hin : input_pdf_path t = input) by reflexivity.
  assert (Hout : output_directory t = out) by reflexivity.
  destruct (run_trace_outcome W t (init_is_fresh _ _ _ _ _)) as (c & Hc & Ho).
  split; [|split].
  - intros e Hex Hmk Hcl.
    destruct Ho as [Hex'|e_os Hex' Hmk' Hcl'|e' Hex' Hmk' Hop|Hex' Hmk' Hop
                   |P k s c tail (H1 & H2 & H3 & H4) B E|e_mk Hex' Hmk' Hcl'];
      rewrite ?Hin, ?Hout in *; try (exfalso; congruence).
    replace e_os with e by congruence. reflexivity.
  - intros e Hex Hmk Hop.
    destruct Ho as [Hex'|e_os Hex' Hmk' Hcl'|e' Hex' Hmk' Hop'|Hex' Hmk' Hop'
                   |P k s c tail (H1 & H2 & H3 & H4) B E|e_mk Hex' Hmk' Hcl'];
      rewrite ?Hin, ?Hout in *; try (exfalso; congruence).
    replace e' with e by congruence. reflexivity.
  - intros P k e Hs Hk Hh Hreq Hfault.
    destruct (faulted_run W t P k e (init_is_fresh _ _ _ _ _) Hs Hk Hh Hreq Hfault)
      as (s & F & Htr).
    rewrite Htr, signals_app, loads_app, (bf_signals _ _ _ _ _ F),
      (bf_loads _ _ _ _ _ F), (bf_errors _ _ _ _ _ F), seq_S.
    split; reflexivity.
Qed.

(** C7.  With the output directory ["out\x00x"], [run] completes by
    raising the [ValueError] of [os.makedirs]: lines 36-41 are not inside
    the [try] of line 45, and their handler catches [OSError] only.  The
    specification asks for every failure to be caught and turned into an
    outcome; here nothing is emitted. *)
Theorem run_raises_past_its_boundary :
  fst (run null_rejected (start null_thread)) = Raised embedded_null /\
  isinstance_OSError embedded_null = false /\
  unfinished (signals (run_trace null_rejected null_thread)) = true.
Proof. repeat split; reflexivity. Qed.

Lemma error_detail_is_page_line W i e :
  save_error W i = Some e -> error_detail i e = page_line W i.
Proof.
  intros H. unfold page_line, failure_text. rewrite H. reflexivity.
Qed.

(** As long as the [print] of line 78 returns, an iteration whose [save]
    fails falls through to the tick and to the next iteration, having
    added one entry "Page i+1: text" to the failure list and nothing to
    the count; and at every loop boundary the entry of a failed page
    occurs exactly once in the list. *)
Lemma save_failure_recorded_when_print_returns W input out dpi fmt :
  let t := init W input out dpi fmt in
  (forall i s im e,
     self s = t -> shell_requests W (reads s) = false ->
     page_image W t i = inr im -> save_error W i = Some e ->
     print_error W i = None ->
     exists s',
       convert_page W i s = (Normal tt, s') /\
       page_save_errors s' = page_save_errors s ++ [error_detail i e] /\
       converted_count s' = converted_count s /\
       signals (trace s') = signals (trace s) ++ [progress_update (i + 1)]) /\
  (forall k s i e,
     at_boundary W t k s -> i < k -> save_error W i = Some e ->
     count_occ string_dec (page_save_errors s) (error_detail i e) = 1).
Proof.
  intros t. split.
  - intros i s im e Hself Hr Hi He Hp.
    exists (page_done W i im s). split.
    + apply convert_page_done; rewrite ?Hself; auto.
      unfold print_fault. rewrite He. exact Hp.
    + unfold page_done. rewrite He. simpl.
      rewrite !signals_app. simpl. rewrite !app_nil_r. auto.
  - intros k s i e B Hi He.
    destruct (at_boundary_facts W t k s B) as (P & F).
    rewrite (bf_errors _ _ _ _ _ F), errors_upto_map,
      (error_detail_is_page_line W i e He).
    unfold failed_pages.
    rewrite (count_occ_selected string_dec (page_line W)
               (fun i => negb (saved W i)) (page_line_inj W)).
    unfold saved. rewrite He.
    replace (i <? k)%nat with true by (symmetry; apply Nat.ltb_lt; exact Hi).
    reflexivity.
Qed.

(** C4.  In the run of [unprintable] the [save] of page 1 fails and the
    [print] of line 78, which stands in the handler before the [append] of
    line 79, raises.  The specification asks for the failure to be
    recorded and for the loop to go on; the exception of the [print] reaches the
    handler of line 83 instead: the run ends with the fatal outcome, whose
    failure list is empty, page 1 is not ticked off and page 2 is never
    loaded. *)
Theorem save_failure_escalated_when_print_raises :
  run_trace unprintable sample_thread =
    [MakeDirs "out"; Emit (total_pages_known 2);
     CheckInterruption false; LoadPage 0;
     Save "out/page_1.png" (mk_Image RGB (10, 10)) (Some disk_full);
     Print "  Error saving Page 1: No space left on device";
     Emit (finished_conversion
             "Error processing PDF with PyMuPDF: I/O operation on closed file."
             false []);
     Close] /\
  signals (run_trace unprintable sample_thread) =
    [total_pages_known 2;
     finished_conversion
       "Error processing PDF with PyMuPDF: I/O operation on closed file."
       false []] /\
  loads (run_trace unprintable sample_thread) = [0] /\
  fst (run unprintable (start sample_thread)) = Returned.
Proof. repeat split; reflexivity. Qed.

(** The calls of [save] of a run are those for the pages 0..n-1, in that
    order, and the files written are those of the calls that returned. *)
Lemma run_saves W t :
  _is_interruption_requested t = false ->
  exists n,
    save_attempts (run_trace W t) =
      map (fun i => (output_image_path t i, save_error W i)) (seq 0 n) /\
    written (run_trace W t) =
      map (output_image_path t) (filter (saved W) (seq 0 n)) /\
    forallb opaque_save (run_trace W t) = true.
Proof.
  intros Hf. destruct (run_trace_outcome W t Hf) as (c & _ & Ho).
  destruct Ho as [Hex|e_os Hex Hmk Hcl|e Hex Hmk Hop|Hex Hmk Hop
      |P k s c tail Hs B E|e_mk Hex_mk Hmk_mk Hcl_mk];
    try (exists 0; repeat split; reflexivity).
  destruct (at_boundary_facts W t k s B) as (P' & F).
  rewrite save_attempts_app, written_app, forallb_app,
    (bf_saves _ _ _ _ _ F), (bf_written _ _ _ _ _ F), (bf_opaque _ _ _ _ _ F),
    (ending_written W t P k s c tail E), (ending_opaque W t P k s c tail E),
    app_nil_r.
  destruct (ending_save_attempts W t P k s c tail E)
    as [->|(_ & -> & Hsv & _)].
  - exists k. rewrite app_nil_r. auto.
  - exists (S k). rewrite seq_S, map_app, filter_app. simpl.
    rewrite Hsv, app_nil_r. auto.
Qed.


(** C9.  Every image handed to [save] during a run has mode RGB: a
    pixmap with an alpha channel was converted first. *)
Theorem saved_images_are_opaque W input out dpi fmt :
  forallb opaque_save (run_trace W (init W input out dpi fmt)) = true.
Proof.
  destruct (run_saves W (init W input out dpi fmt) (init_is_fresh _ _ _ _ _))
    as (k & _ & _ & H).
  exact H.
Qed.

Lemma last_seq_1 k : last (seq 1 k) 0 = k.
Proof.
  destruct k as [|k]; [reflexivity|].
  rewrite seq_S. apply last_last.
Qed.

(** C10.  Before each iteration [k] of the page loop, the number of
    pages converted and the length of the failure list add up to [k],
    which is the value of the last tick (0 when there was none), and the
    failure list has one entry for each failed page among 0..k-1, in
    ascending order of page. *)
Theorem loop_accounting_invariant W t k s :
  at_boundary W t k s ->
  converted_count s + length (page_save_errors s) = k /\
  last (ticks (trace s)) 0 = k /\
  page_save_errors s = map (page_line W) (failed_pages W k) /\
  StronglySorted lt (failed_pages W k) /\
  Forall (fun i => i < k /\ save_error W i <> None) (failed_pages W k).
Proof.
  intros B. destruct (at_boundary_facts W t k s B) as (P & F).
  split; [|split; [|split; [|split]]].
  - rewrite (bf_converted _ _ _ _ _ F), (bf_errors _ _ _ _ _ F).
    apply length_errors_upto.
  - rewrite ticks_of_signals, (bf_signals _ _ _ _ _ F). simpl.
    rewrite <- (app_nil_r (map progress_update (seq 1 k))).
    rewrite ticks_of_progress. simpl. rewrite app_nil_r.
    apply last_seq_1.
  - rewrite (bf_errors _ _ _ _ _ F). apply errors_upto_map.
  - apply failed_pages_sorted.
  - apply Forall_forall. intros i Hi. unfold failed_pages in Hi.
    apply filter_In in Hi. destruct Hi as [Hi Hsv]. apply in_seq in Hi.
    split; [lia|]. unfold saved in Hsv.
    destruct (save_error W i); [discriminate|discriminate].
Qed.

Lemma loop_accounting_invariant_witness :
  exists s,
    at_boundary (sample 2 (at_ 0) never never) sample_thread 2 s /\
    converted_count s + length (page_save_errors s) = 2.
Proof.
  assert (B : at_boundary (sample 2 (at_ 0) never never) sample_thread 2
            (snd (convert_page (sample 2 (at_ 0) never never) 1
               (snd (convert_page (sample 2 (at_ 0) never never) 0
                       (loop_start sample_thread 2)))))).
  { eapply boundary_next.
    - eapply boundary_next.
      + apply boundary_first; [reflexivity|].
        repeat split; try reflexivity. discriminate.
      + simpl. lia.
      + vm_compute. reflexivity.
    - simpl. lia.
    - vm_compute. reflexivity. }
  eexists. split; [exact B|].
  exact (proj1 (loop_accounting_invariant _ _ _ _ B)).
Defined.

(* ================================================================== *)
(** ** Further properties of the worker *)

Lemma boundary_ticks W t P k s :
  boundary_facts W t P k s -> ticks (trace s) = seq 1 k.
Proof.
  intros F. rewrite ticks_of_signals, (bf_signals _ _ _ _ _ F). simpl.
  rewrite <- (app_nil_r (map progress_update (seq 1 k))).
  rewrite ticks_of_progress. apply app_nil_r.
Qed.





Lemma convert_page_normal_trace W t P k s s' :
  boundary_facts W t P k s ->
  convert_page W k s = (Normal tt, s') ->
  exists im, trace s' = trace s ++ page_actions W t k im.
Proof.
  intros F Hc.
  assert (Hflag : _is_interruption_requested (self s) = false)
    by (rewrite (bf_self _ _ _ _ _ F); exact (bf_fresh _ _ _ _ _ F)).
  destruct (convert_page_normal W k s s' Hflag Hc) as (_ & _ & im & _ & ->).
  exists im. rewrite trace_page_done, (bf_self _ _ _ _ _ F). reflexivity.
Qed.




Lemma closes_app tr tr' : closes (tr ++ tr') = closes tr + closes tr'.
Proof. unfold closes. rewrite filter_app. apply length_app. Qed.

Lemma closes_page_actions W t k im : closes (page_actions W t k im) = 0.
Proof. unfold page_actions. destruct (save_error W k); reflexivity. Qed.

Lemma no_close_at_boundary W t k s :
  at_boundary W t k s -> closes (trace s) = 0.
Proof.
  induction 1 as [P Hf Hs|k s s' B IH Hk Hc]; [reflexivity|].
  destruct (at_boundary_facts W t k s B) as (P & F).
  destruct (convert_page_normal_trace W t P k s s' F Hc) as (im & ->).
  rewrite closes_app, IH, closes_page_actions. reflexivity.
Qed.

Lemma loop_exit_of_setup_ok W t P c tr :
  setup_ok W t P -> outcome W t c tr ->
  exists k s tail,
    at_boundary W t k s /\ boundary_facts W t P k s /\
    ending W t P k s c tail /\ tr = trace s ++ tail.
Proof.
  intros Hs Ho. pose proof Hs as (H1 & H2 & H3 & H4).
  destruct Ho as [Hex|e_os Hex Hmk Hcl|e Hex Hmk Hop|Hex Hmk Hop
      |P' k s c tail Hs' B E|e_mk Hex_mk Hmk_mk Hcl_mk];
    try congruence.
  assert (P' = P) by (eapply setup_ok_unique; eassumption). subst P'.
  destruct (at_boundary_facts W t k s B) as (P' & F).
  assert (P' = P)
    by (eapply setup_ok_unique; [exact (bf_setup _ _ _ _ _ F)|exact Hs]).
  subst P'. exists k, s, tail. auto.
Qed.

(** The document is closed exactly once in every run that enters the
    page loop, whichever way the run ends, and no page is loaded, saved or
    ticked off after that; it is not closed in a run that never opened
    it. *)
Theorem document_closed_once W input out dpi fmt :
  let t := init W input out dpi fmt in
  (forall P, setup_ok W t P ->
     closes (run_trace W t) = 1 /\
     exists before after,
       run_trace W t = before ++ Close :: after /\
       forallb (fun a => negb (page_work a)) after = true) /\
  (never_opened W t -> closes (run_trace W t) = 0).
Proof.
  intros t.
  destruct (run_trace_outcome W t (init_is_fresh _ _ _ _ _)) as (c & _ & Ho).
  split.
  - intros P Hs.
    destruct (loop_exit_of_setup_ok W t P c _ Hs Ho)
      as (k & s & tail & B & F & E & Htr).
    rewrite Htr, closes_app, (no_close_at_boundary W t k s B). split.
    + destruct E; reflexivity.
    + destruct E.
      * eexists (trace s), _. split; reflexivity.
      * eexists (trace s), _. split; reflexivity.
      * eexists (trace s), _. split; reflexivity.
      * eexists (trace s ++ [_; _]), []. rewrite <- app_assoc.
        split; reflexivity.
      * eexists (trace s ++ [_; _; _]), []. rewrite <- app_assoc.
        split; reflexivity.
      * eexists (trace s ++ [_; _; _; _; _]), []. rewrite <- app_assoc.
        split; reflexivity.
  - intros Hn.
    destruct Ho as [Hex|e_os Hex Hmk Hcl|e Hex Hmk Hop|Hex Hmk Hop
        |P k s c tail Hs B E|e_mk Hex_mk Hmk_mk Hcl_mk];
      try reflexivity.
    exfalso. destruct Hs as (H1 & H2 & H3 & H4).
    destruct Hn as [Hn|[(text & Hn)|(e & Hn)]]; congruence.
Qed.

Lemma document_closed_once_witness :
  closes (run_trace (sample 3 (at_ 0) (at_ 1) never) sample_thread) = 1.
Proof.
  destruct (document_closed_once (sample 3 (at_ 0) (at_ 1) never)
              "in.pdf" "out" 300 "PNG") as [H _].
  destruct (H 3) as [Hc _].
  - repeat split; try reflexivity. discriminate.
  - exact Hc.
Defined.

Lemma finished_not_in_progress msg ok errs P l :
  ~ In (finished_conversion msg ok errs)
       (total_pages_known P :: map progress_update l).
Proof.
  intros [H|H]; [discriminate|].
  apply in_map_iff in H. destruct H as (x & H & _). discriminate.
Qed.

(** Where a [finished_conversion] of a run comes from: a setup error, or
    the ending after some boundary of the loop. *)
Lemma finished_in_run W t msg ok errs :
  _is_interruption_requested t = false ->
  In (finished_conversion msg ok errs) (signals (run_trace W t)) ->
  (ok = false /\ errs = [] /\
   ticks (run_trace W t) = [] /\ written (run_trace W t) = []) \/
  exists P k s c tail,
    setup_ok W t P /\ boundary_facts W t P k s /\ ending W t P k s c tail /\
    run_trace W t = trace s ++ tail /\
    In (finished_conversion msg ok errs) (signals tail).
Proof.
  intros Hf Hin. destruct (run_trace_outcome W t Hf) as (c & _ & Ho).
  destruct Ho as [Hex|e_os Hex Hmk Hcl|e Hex Hmk Hop|Hex Hmk Hop
      |P k s c tail Hs B E|e_mk Hex_mk Hmk_mk Hcl_mk].
  1-4: left; simpl in Hin; destruct Hin as [Hin|[]];
       injection Hin as <- <- <-; repeat split; reflexivity.
  2: contradiction.
  right. destruct (at_boundary_facts W t k s B) as (P' & F).
  assert (P' = P)
    by (eapply setup_ok_unique; [exact (bf_setup _ _ _ _ _ F)|exact Hs]).
  subst P'. exists P, k, s, c, tail.
  split; [exact Hs|]. split; [exact F|]. split; [exact E|].
  split; [reflexivity|].
  rewrite signals_app, (bf_signals _ _ _ _ _ F) in Hin.
  apply in_app_or in Hin. destruct Hin as [Hin|Hin]; [|exact Hin].
  exfalso. exact (finished_not_in_progress _ _ _ _ _ Hin).
Qed.

(** Success is reported only for a run that went through the whole
    document: when the outcome has [success = True], all [P] pages were
    attempted, at least one was saved, and the failure list is that of
    the whole document. *)
Theorem success_means_all_pages_attempted W input out dpi fmt msg errs :
  let t := init W input out dpi fmt in
  In (finished_conversion msg true errs) (signals (run_trace W t)) ->
  exists P,
    setup_ok W t P /\
    ticks (run_trace W t) = seq 1 P /\
    loads (run_trace W t) = seq 0 P /\
    0 < converted_upto W P /\
    errs = errors_upto W P /\
    msg = success_message t (converted_upto W P) errs.
Proof.
  intros t Hin.
  destruct (finished_in_run W t msg true errs (init_is_fresh _ _ _ _ _) Hin)
    as [(H & _)|(P & k & s & c & tail & Hs & F & E & Htr & Hin')];
    [discriminate|].
  exists P. split; [exact Hs|].
  destruct E as [-> Hc| -> Hc Hr| -> Hc Hr|Hk Hr|e Hk Hr Hi
      |im e_save e_pr Hk Hr Hi Hsv Hpr];
    simpl in Hin'; try (destruct Hin' as [Hin'|[]]; discriminate);
    try contradiction.
  destruct Hin' as [Hin'|[]]. injection Hin' as <- <-.
  rewrite Htr, ticks_app, loads_app, (boundary_ticks _ _ _ _ _ F),
    (bf_loads _ _ _ _ _ F), <- (bf_converted _ _ _ _ _ F),
    <- (bf_errors _ _ _ _ _ F). simpl. rewrite !app_nil_r. auto.
Qed.

Lemma success_means_all_pages_attempted_witness :
  exists P,
    ticks (run_trace (sample 2 (at_ 1) never never) sample_thread) = seq 1 P.
Proof.
  destruct (success_means_all_pages_attempted
              (sample 2 (at_ 1) never never) "in.pdf" "out" 300 "PNG"
              (success_message sample_thread 1 ["Page 2: No space left on device"])
              ["Page 2: No space left on device"])
    as (P & _ & H & _).
  - vm_compute. right. right. right. left. reflexivity.
  - exists P. exact H.
Defined.

(** Whichever way a run ends, the failure list of its outcome has one
    entry for each page, among the pages ticked off, whose [save] failed,
    in page order, and none for any other page. *)
Theorem outcome_lists_failed_saves W input out dpi fmt msg ok errs :
  let tr := run_trace W (init W input out dpi fmt) in
  In (finished_conversion msg ok errs) (signals tr) ->
  errs = map (page_line W) (failed_pages W (length (ticks tr))).
Proof.
  intros tr Hin. unfold tr in *.
  destruct (finished_in_run W _ msg ok errs (init_is_fresh _ _ _ _ _) Hin)
    as [(_ & -> & -> & _)|(P & k & s & c & tail & Hs & F & E & Htr & Hin')];
    [reflexivity|].
  rewrite Htr, ticks_app, (boundary_ticks _ _ _ _ _ F), length_app,
    length_seq, <- errors_upto_map.
  destruct E; simpl in *; try contradiction;
    destruct Hin' as [Hin'|[]]; injection Hin' as _ _ <-;
    rewrite Nat.add_0_r; exact (bf_errors _ _ _ _ _ F).
Qed.

Lemma outcome_lists_failed_saves_witness :
  ["Page 1: No space left on device"] =
  map (page_line (sample 3 (at_ 0) never (at_ 1)))
    (failed_pages (sample 3 (at_ 0) never (at_ 1))
       (length (ticks (run_trace (sample 3 (at_ 0) never (at_ 1))
                         sample_thread)))).
Proof.
  apply (outcome_lists_failed_saves (sample 3 (at_ 0) never (at_ 1))
           "in.pdf" "out" 300 "PNG" "Conversion cancelled by user." false).
  vm_compute. right. right. left. reflexivity.
Defined.

(** A request of the shell that becomes visible only after the last look
    of the loop at the flag is ignored when at least one page was
    converted: the run reports success. *)
Theorem late_request_ignored_after_success W input out dpi fmt P :
  let t := init W input out dpi fmt in
  setup_ok W t P -> history W t P -> 0 < converted_upto W P ->
  signals (run_trace W t) =
    total_pages_known P :: map progress_update (seq 1 P)
    ++ [finished_conversion
          (success_message t (converted_upto W P) (errors_upto W P))
          true (errors_upto W P)].
Proof.
  intros t Hs Hh Hpos.
  destruct (run_trace_outcome W t (init_is_fresh _ _ _ _ _)) as (c & _ & Ho).
  destruct (outcome_of_setup_ok W t P c _ Hs Ho) as (k & s & tail & F & E & ->).
  rewrite signals_app, (bf_signals _ _ _ _ _ F).
  destruct E as [-> Hc| -> Hc Hr| -> Hc Hr|Hk Hr|e Hk Hr Hi
      |im e_save e_pr Hk Hr Hi Hsv Hpr].
  - rewrite (bf_converted _ _ _ _ _ F), (bf_errors _ _ _ _ _ F). reflexivity.
  - rewrite (bf_converted _ _ _ _ _ F) in Hc. lia.
  - rewrite (bf_converted _ _ _ _ _ F) in Hc. lia.
  - destruct (Hh k Hk) as [Hq _]. congruence.
  - destruct (Hh k Hk) as (_ & (im' & Him) & _). congruence.
  - destruct (Hh k Hk) as (_ & _ & Hp).
    rewrite (print_fault_of W k e_save e_pr Hsv Hpr) in Hp. discriminate.
Qed.

Lemma late_request_ignored_after_success_witness :
  signals (run_trace (sample 2 (at_ 0) never (at_ 2)) sample_thread) =
    [total_pages_known 2; progress_update 1; progress_update 2;
     finished_conversion
       (success_message sample_thread 1 ["Page 1: No space left on device"])
       true ["Page 1: No space left on device"]].
Proof.
  apply (late_request_ignored_after_success (sample 2 (at_ 0) never (at_ 2))
           "in.pdf" "out" 300 "PNG" 2).
  - repeat split; try reflexivity. discriminate.
  - intros i Hi. split.
    + destruct i as [|[|i]]; [reflexivity|reflexivity|lia].
    + split; [eexists; reflexivity|].
      destruct i as [|[|i]]; [reflexivity|reflexivity|lia].
  - vm_compute. lia.
Defined.

Lemma filter_all {A} (f : A -> bool) l :
  (forall x, In x l -> f x = true) -> filter f l = l.
Proof.
  induction l as [|a l IH]; intros H; [reflexivity|]. simpl.
  rewrite (H a (or_introl eq_refl)), IH; [reflexivity|].
  intros x Hx. apply H. right. exact Hx.
Qed.

Lemma all_saved W P :
  (forall i, i < P -> save_error W i = None) ->
  filter (saved W) (seq 0 P) = seq 0 P /\
  converted_upto W P = P /\ errors_upto W P = [].
Proof.
  intros H.
  assert (Hf : filter (saved W) (seq 0 P) = seq 0 P).
  { apply filter_all. intros i Hi. apply in_seq in Hi.
    unfold saved. rewrite H by lia. reflexivity. }
  split; [exact Hf|]. split.
  - unfold converted_upto. rewrite Hf. apply length_seq.
  - pose proof (length_errors_upto W P) as Hl.
    unfold converted_upto in Hl. rewrite Hf, length_seq in Hl.
    destruct (errors_upto W P); [reflexivity|simpl in Hl; lia].
Qed.

(** When no request is seen, every page is rasterized and every [save]
    returns, the run writes exactly the [P] files page_1 ... page_P, in
    that order, and reports success with an empty failure list and a
    summary that only names the number of pages. *)
Theorem all_pages_written_when_nothing_fails W input out dpi fmt P :
  let t := init W input out dpi fmt in
  setup_ok W t P -> history W t P ->
  (forall i, i < P -> save_error W i = None) ->
  written (run_trace W t) = map (output_image_path t) (seq 0 P) /\
  signals (run_trace W t) =
    total_pages_known P :: map progress_update (seq 1 P)
    ++ [finished_conversion
          ("Successfully converted " ++ Py.str_nat P ++ " page(s) to '"
           ++ out ++ "'.") true []].
Proof.
  intros t Hs Hh Hall.
  destruct (all_saved W P Hall) as (Hf & Hc & He).
  assert (HP : 0 < P) by (destruct Hs as (_ & _ & _ & H); lia).
  destruct (run_trace_outcome W t (init_is_fresh _ _ _ _ _)) as (c & _ & Ho).
  destruct (outcome_of_setup_ok W t P c _ Hs Ho) as (k & s & tail & F & E & ->).
  rewrite signals_app, written_app, (bf_signals _ _ _ _ _ F),
    (bf_written _ _ _ _ _ F).
  destruct E as [-> Hc'| -> Hc' Hr| -> Hc' Hr|Hk Hr|e Hk Hr Hi
      |im e_save e_pr Hk Hr Hi Hsv Hpr].
  - rewrite (bf_converted _ _ _ _ _ F), (bf_errors _ _ _ _ _ F), Hf, Hc, He.
    simpl. rewrite app_nil_r. split; reflexivity.
  - rewrite (bf_converted _ _ _ _ _ F) in Hc'. lia.
  - rewrite (bf_converted _ _ _ _ _ F) in Hc'. lia.
  - destruct (Hh k Hk) as [Hq _]. congruence.
  - destruct (Hh k Hk) as (_ & (im' & Him) & _). congruence.
  - destruct (Hh k Hk) as (_ & _ & Hp).
    rewrite (print_fault_of W k e_save e_pr Hsv Hpr) in Hp. discriminate.
Qed.

Lemma all_pages_written_when_nothing_fails_witness :
  written (run_trace (sample 3 never never never) sample_thread) =
    ["out/page_1.png"; "out/page_2.png"; "out/page_3.png"].
Proof.
  destruct (all_pages_written_when_nothing_fails
              (sample 3 never never never) "in.pdf" "out" 300 "PNG" 3)
    as [H _].
  - repeat split; try reflexivity. discriminate.
  - intros i Hi. split; [reflexivity|]. split; [eexists; reflexivity|reflexivity].
  - intros i Hi. reflexivity.
  - exact H.
Defined.

(** The page count announced is never 0: it is the length of the
    document that was opened, and every tick lies between 1 and it. *)
Theorem signal_values_in_range W input out dpi fmt n :
  let tr := run_trace W (init W input out dpi fmt) in
  In (total_pages_known n) (signals tr) ->
  0 < n /\
  fitz_open W input = inr (mk_Document n) /\
  Forall (fun v => 1 <= v <= n) (ticks tr).
Proof.
  intros tr Hin. unfold tr in *.
  destruct (run_trace_outcome W _ (init_is_fresh W input out dpi fmt))
    as (c & _ & Ho).
  destruct Ho as [Hex|e_os Hex Hmk Hcl|e Hex Hmk Hop|Hex Hmk Hop
      |P k s c tail Hs B E|e_mk Hex_mk Hmk_mk Hcl_mk];
    try (simpl in Hin; destruct Hin as [Hin|[]]; discriminate);
    try contradiction.
  destruct (at_boundary_facts _ _ k s B) as (P' & F).
  assert (P' = P)
    by (eapply setup_ok_unique; [exact (bf_setup _ _ _ _ _ F)|exact Hs]).
  subst P'.
  assert (n = P).
  { rewrite signals_app, (bf_signals _ _ _ _ _ F) in Hin.
    apply in_app_or in Hin. destruct Hin as [[Hin|Hin]|Hin].
    - congruence.
    - apply in_map_iff in Hin. destruct Hin as (x & Hx & _). discriminate.
    - destruct E; simpl in Hin;
        repeat (destruct Hin as [Hin|Hin]; try discriminate);
        contradiction. }
  subst n. destruct Hs as (_ & _ & Hop & HP).
  split; [lia|]. split; [exact Hop|].
  rewrite ticks_app, (boundary_ticks _ _ _ _ _ F).
  pose proof (bf_le _ _ _ _ _ F) as Hle.
  apply Forall_app. split.
  - apply Forall_forall. intros v Hv. apply in_seq in Hv. lia.
  - rewrite (ending_ticks _ _ _ _ _ _ _ E). constructor.
Qed.

Lemma signal_values_in_range_witness :
  Forall (fun v => 1 <= v <= 2)
    (ticks (run_trace (sample 2 (at_ 1) never never) sample_thread)).
Proof.
  apply (signal_values_in_range (sample 2 (at_ 1) never never)
           "in.pdf" "out" 300 "PNG" 2).
  vm_compute. left. reflexivity.
Defined.

(* ================================================================== *)
(** ** The shell driven by a run *)

Lemma string_eqb_nonempty s : s <> "" -> (s =? "")%string = false.
Proof. intros H. apply String.eqb_neq. exact H. Qed.

Lemma setValue_in_range mn mx v f n :
  (mn <= n <= mx)%Z ->
  Shell.setValue n (Shell.mk_bar mn mx v f) = Shell.mk_bar mn mx n f.
Proof.
  intros H. unfold Shell.setValue. simpl.
  destruct (Z.eqb_spec v n) as [->|_]; [reflexivity|].
  destruct (Z.ltb_spec mx n); [lia|].
  destruct (Z.ltb_spec n mn); [lia|]. reflexivity.
Qed.

Lemma setMaximum_from_0 mx v f hi :
  (-1 <= v <= hi)%Z -> (0 <= hi)%Z ->
  Shell.setMaximum hi (Shell.mk_bar 0 mx v f) = Shell.mk_bar 0 hi v f.
Proof.
  intros Hv Hhi. unfold Shell.setMaximum, Shell.setRange. simpl.
  rewrite Z.min_l, Z.max_r by lia. simpl.
  destruct (Z.eqb_spec hi mx) as [->|_]; [reflexivity|]. simpl.
  destruct (Z.ltb_spec v (-1)); [lia|].
  destruct (Z.ltb_spec hi v); [lia|]. reflexivity.
Qed.

Lemma start_ready W u :
  Shell.ready u -> Shell.start_conversion_process W u = started W u.
Proof.
  intros (Hi & Ho & Hmin & Hmax).
  unfold Shell.start_conversion_process.
  rewrite (string_eqb_nonempty _ Hi), (string_eqb_nonempty _ Ho).
  destruct u as [i o th bs bc li lo sp cf [mn mx v f] st bx].
  simpl in *. subst mn. unfold started. simpl.
  rewrite setValue_in_range by lia.
  rewrite setMaximum_from_0 by lia. reflexivity.
Qed.

Lemma deliver_total W u P :
  0 < P ->
  Shell.deliver (started W u) (total_pages_known P) = counting W u P 0.
Proof.
  intros HP. simpl. unfold Shell.set_progress_bar_max.
  replace (0 <? P)%nat with true by (symmetry; apply Nat.ltb_lt; exact HP).
  simpl. rewrite setMaximum_from_0 by lia. reflexivity.
Qed.

Lemma deliver_ticks P f : forall k a v,
  Shell.progress_bar v = Shell.mk_bar 0 (Z.of_nat P) (Z.of_nat a - 1) f ->
  1 <= a -> a + k <= S P ->
  fold_left Shell.deliver (map progress_update (seq a k)) v =
  Shell.set_bar (Shell.mk_bar 0 (Z.of_nat P) (Z.of_nat (a + k) - 1) f) v.
Proof.
  induction k as [|k IH]; intros a v Hb Ha Hk.
  - simpl. rewrite Nat.add_0_r, <- Hb. destruct v. reflexivity.
  - simpl. unfold Shell.update_progress_bar. rewrite Hb.
    rewrite setValue_in_range by lia.
    rewrite (IH (S a));
      [|cbn [Shell.progress_bar Shell.set_bar]; f_equal; lia|lia|lia].
    replace (S a + k) with (a + S k) by lia. reflexivity.
Qed.

(** The window after a run that left the page loop at boundary [k]: the
    state after the ticks, and then whatever the ending emits. *)
Lemma after_trace W u P k s tail :
  Shell.ready u ->
  boundary_facts W (Shell.new_thread W u) P k s ->
  run_trace W (Shell.new_thread W u) = trace s ++ tail ->
  Shell.after_run W u =
    fold_left Shell.deliver (signals tail) (counting W u P k).
Proof.
  intros Hr F Htr.
  unfold Shell.after_run.
  rewrite Htr, signals_app, (bf_signals _ _ _ _ _ F), (start_ready W u Hr).
  rewrite fold_left_app. f_equal. simpl fold_left at 1.
  assert (HP : 0 < P)
    by (destruct (bf_setup _ _ _ _ _ F) as (_ & _ & _ & H); lia).
  change (Shell.set_progress_bar_max P (started W u))
    with (Shell.deliver (started W u) (total_pages_known P)).
  rewrite (deliver_total W u P HP).
  pose proof (bf_le _ _ _ _ _ F) as Hle.
  rewrite (deliver_ticks P (counting_format P) k 1 (counting W u P 0));
    [|reflexivity|lia|lia].
  replace (Z.of_nat (1 + k) - 1)%Z with (Z.of_nat k) by lia.
  reflexivity.
Qed.

Lemma after_run_loop W u P :
  Shell.ready u -> setup_ok W (Shell.new_thread W u) P ->
  exists k s c tail,
    boundary_facts W (Shell.new_thread W u) P k s /\
    ending W (Shell.new_thread W u) P k s c tail /\
    run_trace W (Shell.new_thread W u) = trace s ++ tail /\
    Shell.after_run W u =
      fold_left Shell.deliver (signals tail) (counting W u P k).
Proof.
  intros Hr Hs.
  destruct (run_trace_outcome W (Shell.new_thread W u) eq_refl) as (c & _ & Ho).
  destruct (outcome_of_setup_ok W _ P c _ Hs Ho) as (k & s & tail & F & E & Htr).
  exists k, s, c, tail. split; [exact F|]. split; [exact E|].
  split; [exact Htr|]. exact (after_trace W u P k s tail Hr F Htr).
Qed.

Lemma finished_keeps_bar msg ok errs v :
  let b := Shell.progress_bar v in
  let b' := Shell.progress_bar (Shell.on_conversion_finished msg ok errs v) in
  Shell.minimum b' = Shell.minimum b /\
  Shell.maximum b' = Shell.maximum b /\
  Shell.value b' = Shell.value b.
Proof.
  unfold Shell.on_conversion_finished. simpl.
  destruct (ok && _ && _); [|destruct (negb ok && _)];
    destruct errs; destruct ok; simpl;
    try destruct (negb _); simpl; auto.
Qed.

(** During and after a run that opened the document the bar runs from 0
    to the page count, and once all the signals are handled its value is
    the number of ticks: no tick is dropped as out of range. *)
Theorem progress_bar_follows_run W u P :
  Shell.ready u -> setup_ok W (Shell.new_thread W u) P ->
  let b := Shell.progress_bar (Shell.after_run W u) in
  Shell.minimum b = 0%Z /\
  Shell.maximum b = Z.of_nat P /\
  Shell.value b =
    Z.of_nat (length (ticks (run_trace W (Shell.new_thread W u)))) /\
  (Shell.value b <= Shell.maximum b)%Z.
Proof.
  intros Hr Hs b. unfold b.
  destruct (after_run_loop W u P Hr Hs)
    as (k & s & c & tail & F & E & Htr & ->).
  pose proof (bf_le _ _ _ _ _ F) as Hle.
  assert (Hk : length (ticks (run_trace W (Shell.new_thread W u))) = k).
  { rewrite Htr, ticks_app, (boundary_ticks _ _ _ _ _ F), length_app,
      length_seq. destruct E; simpl; lia. }
  rewrite Hk.
  assert (Hb : forall v,
            Shell.progress_bar v =
              Shell.progress_bar (counting W u P k) ->
            Shell.minimum (Shell.progress_bar v) = 0%Z /\
            Shell.maximum (Shell.progress_bar v) = Z.of_nat P /\
            Shell.value (Shell.progress_bar v) = Z.of_nat k /\
            (Shell.value (Shell.progress_bar v)
             <= Shell.maximum (Shell.progress_bar v))%Z).
  { intros v ->. simpl. repeat split; lia. }
  destruct E; simpl signals; simpl fold_left;
    try (apply Hb; reflexivity);
    match goal with
    | |- context [Shell.on_conversion_finished ?m ?o ?e ?v] =>
        destruct (finished_keeps_bar m o e v) as (Hb1 & Hb2 & Hb3);
        rewrite Hb1, Hb2, Hb3; simpl; repeat split; lia
    end.
Qed.

Lemma sample_app_ready : Shell.ready sample_app.
Proof. repeat split; try discriminate; simpl; lia. Qed.

Lemma progress_bar_follows_run_witness :
  Shell.value
    (Shell.progress_bar
       (Shell.after_run (sample 3 (at_ 0) never (at_ 1)) sample_app)) =
  Z.of_nat
    (length (ticks (run_trace (sample 3 (at_ 0) never (at_ 1))
                      (Shell.new_thread (sample 3 (at_ 0) never (at_ 1))
                         sample_app)))).
Proof.
  destruct (progress_bar_follows_run (sample 3 (at_ 0) never (at_ 1))
              sample_app 3) as (_ & _ & H & _).
  - repeat split; try discriminate; simpl; lia.
  - repeat split; try reflexivity. discriminate.
  - exact H.
Defined.

Lemma deliver_keeps_start v sg :
  Shell.btn_start_conversion (Shell.deliver v sg) =
  Shell.btn_start_conversion v || is_finished sg.
Proof.
  destruct sg as [n|n|msg ok errs]; simpl.
  - rewrite orb_false_r. reflexivity.
  - unfold Shell.set_progress_bar_max. destruct (0 <? n)%nat; simpl;
      rewrite orb_false_r; reflexivity.
  - rewrite orb_true_r. unfold Shell.on_conversion_finished. simpl.
    destruct (ok && _ && _); [|destruct (negb ok && _)];
      destruct errs; destruct ok; simpl;
      try destruct (negb _); reflexivity.
Qed.

Lemma fold_deliver_start sgs : forall v,
  Shell.btn_start_conversion (fold_left Shell.deliver sgs v) =
  Shell.btn_start_conversion v || negb (unfinished sgs).
Proof.
  induction sgs as [|sg sgs IH]; intros v; simpl.
  - rewrite orb_false_r. reflexivity.
  - rewrite IH, deliver_keeps_start. unfold unfinished. simpl.
    destruct (Shell.btn_start_conversion v), (is_finished sg); reflexivity.
Qed.

Lemma finished_resets msg ok errs v :
  let v' := Shell.on_conversion_finished msg ok errs v in
  Shell.processing_thread v' = None /\
  Shell.btn_cancel_conversion v' = false /\
  Shell.btn_start_conversion v' = true /\
  Shell.status_bar v' = msg.
Proof.
  unfold Shell.on_conversion_finished. simpl.
  destruct errs;
    repeat match goal with
    | |- context [if ?c then _ else _] => destruct c
    end; repeat split; reflexivity.
Qed.

(** After a click on Start the button is enabled again exactly when the
    run emits [finished_conversion].  It stays disabled, with the thread
    still referenced, in one case: all the pages were attempted, none was
    saved, and the request to cancel became visible after the last look
    of the loop at the flag.  (The folder comes from a dialog of the
    shell: [os.makedirs] is taken to fail on it with an [OSError], if it
    fails.) *)
Theorem start_stays_disabled_iff_late_cancel W u :
  Shell.ready u ->
  let t := Shell.new_thread W u in
  let v := Shell.after_run W u in
  (makedirs_fails_with_OSError W t ->
   (Shell.btn_start_conversion v = false <->
    exists P, setup_ok W t P /\ history W t P /\
              converted_upto W P = 0 /\ shell_requests W P = true)) /\
  (Shell.btn_start_conversion v = true ->
   Shell.processing_thread v = None /\
   Shell.btn_cancel_conversion v = false) /\
  (Shell.btn_start_conversion v = false ->
   Shell.processing_thread v = Some t).
Proof.
  intros Hr t v.
  assert (Hstart : Shell.btn_start_conversion v
                   = negb (unfinished (signals (run_trace W t)))).
  { unfold v, Shell.after_run. rewrite fold_deliver_start, (start_ready W u Hr).
    reflexivity. }
  split; [|split].
  - intros Hos. rewrite Hstart, negb_false_iff.
    apply (finished_missing_iff W t eq_refl Hos).
  - intros Hen. rewrite Hstart in Hen. apply negb_true_iff in Hen.
    destruct (finished_last_and_at_most_once W t eq_refl)
      as (before & tail & Hsig & Hb & [->|(msg & ok & errs & ->)]).
    + rewrite app_nil_r in Hsig. congruence.
    + unfold v, Shell.after_run. fold t. rewrite Hsig, fold_left_app.
      simpl fold_left at 1.
      match goal with
      | |- context [Shell.on_conversion_finished ?m ?o ?e ?a] =>
          destruct (finished_resets m o e a) as (H1 & H2 & _)
      end.
      split; assumption.
  - intros Hdis. rewrite Hstart in Hdis. apply negb_false_iff in Hdis.
    unfold v, Shell.after_run. fold t. rewrite (start_ready W u Hr).
    revert Hdis. generalize (signals (run_trace W t)).
    assert (Hth : Shell.processing_thread (started W u) = Some t)
      by reflexivity.
    revert Hth. generalize (started W u).
    intros a Ha l. revert a Ha.
    induction l as [|sg l IH]; intros a Ha Hu; [exact Ha|].
    unfold unfinished in Hu. simpl in Hu. apply andb_prop in Hu.
    destruct Hu as [Hsg Hu]. simpl. apply IH; [|exact Hu].
    destruct sg as [n|n|msg ok errs]; simpl in *; try discriminate.
    + exact Ha.
    + unfold Shell.set_progress_bar_max. destruct (0 <? n)%nat; exact Ha.
Qed.

Lemma start_stays_disabled_iff_late_cancel_witness :
  Shell.btn_start_conversion (Shell.after_run late_interruption sample_app)
  = false.
Proof.
  destruct (start_stays_disabled_iff_late_cancel late_interruption sample_app)
    as [H _].
  - repeat split; try discriminate; simpl; lia.
  - apply H; [intros e He; discriminate|].
    exists 1. split; [|split; [|split]].
    + repeat split; try reflexivity. discriminate.
    + intros i Hi. assert (i = 0) by lia. subst i.
      split; [reflexivity|]. split; [eexists; reflexivity|reflexivity].
    + reflexivity.
    + reflexivity.
Defined.

(** A run that goes through all the pages and converts at least one. *)
Lemma successful_run W t P :
  _is_interruption_requested t = false ->
  setup_ok W t P -> history W t P -> 0 < converted_upto W P ->
  exists s,
    boundary_facts W t P P s /\
    run_trace W t =
      trace s ++ [Close;
                  Emit (finished_conversion
                          (success_message t (converted_upto W P)
                             (errors_upto W P))
                          true (errors_upto W P))].
Proof.
  intros Hf Hs Hh Hpos.
  destruct (run_trace_outcome W t Hf) as (c & _ & Ho).
  destruct (outcome_of_setup_ok W t P c _ Hs Ho) as (k & s & tail & F & E & ->).
  destruct E as [-> Hc| -> Hc Hr| -> Hc Hr|Hk Hr|e Hk Hr Hi
      |im e_save e_pr Hk Hr Hi Hsv Hpr].
  - exists s. split; [exact F|].
    rewrite (bf_converted _ _ _ _ _ F), (bf_errors _ _ _ _ _ F). reflexivity.
  - rewrite (bf_converted _ _ _ _ _ F) in Hc. lia.
  - rewrite (bf_converted _ _ _ _ _ F) in Hc. lia.
  - destruct (Hh k Hk) as [Hq _]. congruence.
  - destruct (Hh k Hk) as (_ & (im' & Him) & _). congruence.
  - destruct (Hh k Hk) as (_ & _ & Hp).
    rewrite (print_fault_of W k e_save e_pr Hsv Hpr) in Hp. discriminate.
Qed.

Ltac shell_compute :=
  cbv beta iota zeta delta
    [Shell.set_thread Shell.show Shell.set_bar Shell.setFormat
     Shell.set_cancel_enabled Shell.set_start_enabled Shell.showMessage
     counting started presented warning_of
     Shell.input_pdf_path Shell.output_directory_path
     Shell.processing_thread Shell.btn_start_conversion
     Shell.btn_cancel_conversion Shell.lbl_input_pdf Shell.lbl_output_folder
     Shell.spin_dpi Shell.combo_format Shell.progress_bar Shell.status_bar
     Shell.boxes Shell.minimum Shell.maximum Shell.value Shell.format].

(** How the slot presents a success and a failure. *)
Lemma finished_success W msg errs u P k :
  k = P -> 0 < P ->
  Shell.on_conversion_finished msg true errs (counting W u P k) =
  presented u P P "Completed!" msg
    (warning_of errs
     ++ [Shell.mk_box Shell.Information "Conversion Status" msg]).
Proof.
  intros -> HP.
  assert (H0 : (0 <? Z.of_nat P)%Z = true) by (apply Z.ltb_lt; lia).
  unfold Shell.on_conversion_finished. shell_compute.
  rewrite Z.eqb_refl, H0. cbn [andb].
  destruct errs; [reflexivity|].
  rewrite <- app_assoc. reflexivity.
Qed.

Lemma finished_failure W msg errs u P k f :
  Shell.on_conversion_finished msg false errs
    (Shell.set_bar (Shell.mk_bar 0 (Z.of_nat P) (Z.of_nat k) f) (started W u)) =
  if Shell.contains "cancelled" (Py.lower msg)
  then presented u P k "Cancelled" msg (warning_of errs)
  else presented u P k "Finished with issues or no pages" msg
         (warning_of errs
          ++ [Shell.mk_box Shell.Critical "Conversion Error" msg]).
Proof.
  unfold Shell.on_conversion_finished. cbn [andb negb].
  destruct (Shell.contains "cancelled" (Py.lower msg));
    destruct errs; shell_compute;
    rewrite <- ?app_assoc, ?app_nil_r; reflexivity.
Qed.

(** A run that converts at least one page and is not cut short leaves
    the bar full with the format "Completed!", shows the warning that
    lists the failed pages when there are some, then the information box
    with the summary, and gives the buttons back. *)
Theorem successful_run_presented_as_completed W u P :
  let t := Shell.new_thread W u in
  let msg := success_message t (converted_upto W P) (errors_upto W P) in
  Shell.ready u ->
  setup_ok W t P -> history W t P -> 0 < converted_upto W P ->
  Shell.after_run W u =
    presented u P P "Completed!" msg
      (warning_of (errors_upto W P)
       ++ [Shell.mk_box Shell.Information "Conversion Status" msg]).
Proof.
  intros t msg Hr Hs Hh Hpos.
  destruct (successful_run W t P eq_refl Hs Hh Hpos) as (s & F & Htr).
  rewrite (after_trace W u P P s _ Hr F Htr).
  assert (HP : 0 < P) by (destruct Hs as (_ & _ & _ & H); lia).
  unfold signals;
    cbn [flat_map signal_of Datatypes.app fold_left Shell.deliver].
  apply finished_success; [reflexivity|exact HP].
Qed.

Lemma successful_run_presented_as_completed_witness :
  Shell.format
    (Shell.progress_bar
       (Shell.after_run (sample 2 (at_ 0) never (at_ 2)) sample_app))
  = "Completed!".
Proof.
  rewrite (successful_run_presented_as_completed
             (sample 2 (at_ 0) never (at_ 2)) sample_app 2).
  - reflexivity.
  - repeat split; try discriminate; simpl; lia.
  - repeat split; try reflexivity. discriminate.
  - intros i Hi. split.
    + destruct i as [|[|i]]; [reflexivity|reflexivity|lia].
    + split; [eexists; reflexivity|].
      destruct i as [|[|i]]; [reflexivity|reflexivity|lia].
  - vm_compute. lia.
Defined.

Lemma cancel_summary_mentions_cancelled :
  Shell.contains "cancelled" (Py.lower "Conversion cancelled by user.") = true.
Proof. vm_compute. reflexivity. Qed.

(** A run that sees the request before page [k] leaves the bar at [k] of
    [P] with the format "Cancelled" and gives the buttons back; the only
    box it can add is the warning that lists the pages that failed before
    the request: no information box and no critical box. *)
Theorem cancelled_run_presented_as_cancelled W u P k :
  let t := Shell.new_thread W u in
  Shell.ready u ->
  setup_ok W t P -> k < P -> history W t k -> shell_requests W k = true ->
  Shell.after_run W u =
    presented u P k "Cancelled" "Conversion cancelled by user."
      (warning_of (errors_upto W k)).
Proof.
  intros t Hr Hs Hk Hh Hreq.
  destruct (cancelled_run W t P k eq_refl Hs Hk Hh Hreq) as (s & F & Htr).
  rewrite (after_trace W u P k s _ Hr F Htr), (bf_errors _ _ _ _ _ F).
  unfold signals;
    cbn [flat_map signal_of Datatypes.app fold_left Shell.deliver].
  unfold counting.
  rewrite finished_failure, cancel_summary_mentions_cancelled.
  reflexivity.
Qed.

Lemma cancelled_run_presented_as_cancelled_witness :
  Shell.boxes (Shell.after_run (sample 3 (at_ 0) never (at_ 1)) sample_app) =
    [Shell.mk_box Shell.Warning "Page Saving Errors"
       (Shell.error_summary ["Page 1: No space left on device"])].
Proof.
  rewrite (cancelled_run_presented_as_cancelled
             (sample 3 (at_ 0) never (at_ 1)) sample_app 3 1).
  - reflexivity.
  - repeat split; try discriminate; simpl; lia.
  - repeat split; try reflexivity. discriminate.
  - lia.
  - intros i Hi. assert (i = 0) by lia. subst i.
    split; [reflexivity|]. split; [eexists; reflexivity|reflexivity].
  - reflexivity.
Defined.

Lemma run_trace_not_found W t :
  path_exists W (input_pdf_path t) = false ->
  run_trace W t =
    [Emit (finished_conversion
             ("Error: Input PDF file not found:" ++ Py.nl ++ input_pdf_path t)
             false [])].
Proof.
  intros Hex. unfold run_trace, run.
  unfold bind at 1. simpl. unfold bind at 1. simpl.
  unfold bind at 1. simpl. rewrite Hex. reflexivity.
Qed.

Lemma not_found_summary_mentions input :
  Shell.contains "cancelled"
    (Py.lower ("Error: Input PDF file not found:" ++ Py.nl ++ input)) =
  Shell.contains "cancelled" (Py.lower input).
Proof. reflexivity. Qed.

(** The shell tells a cancellation from an error by looking for
    "cancelled" in the lower-cased summary, and the summary of a missing
    source quotes the path: when the path of the missing file contains
    "cancelled" in any case, no box is shown at all and the bar says
    "Cancelled"; otherwise the critical box is shown. *)
Theorem missing_source_presentation W u :
  let input := Shell.input_pdf_path u in
  let msg := ("Error: Input PDF file not found:" ++ Py.nl ++ input)%string in
  Shell.ready u ->
  path_exists W input = false ->
  Shell.after_run W u =
    if Shell.contains "cancelled" (Py.lower input)
    then presented u 0 0 "Cancelled" msg []
    else presented u 0 0 "Finished with issues or no pages" msg
           [Shell.mk_box Shell.Critical "Conversion Error" msg].
Proof.
  intros input msg Hr Hex.
  unfold Shell.after_run.
  rewrite (run_trace_not_found W (Shell.new_thread W u) Hex), (start_ready W u Hr).
  unfold signals;
    cbn [flat_map signal_of Datatypes.app fold_left Shell.deliver].
  change (input_pdf_path (Shell.new_thread W u)) with input. fold msg.
  change (started W u)
    with (Shell.set_bar (Shell.mk_bar 0 (Z.of_nat 0) (Z.of_nat 0)
                           "Processing...") (started W u)) at 1.
  rewrite finished_failure. unfold msg at 1.
  rewrite not_found_summary_mentions. reflexivity.
Qed.

Lemma missing_source_presentation_witness :
  Shell.boxes
    (Shell.after_run missing_source
       (Shell.mk_app "/home/u/Cancelled orders/in.pdf" "out" None true false
          "in.pdf" "out" 300 "png" (Shell.progress_bar Shell.setup_ui)
          "Ready" [])) = [].
Proof.
  rewrite (missing_source_presentation missing_source).
  - reflexivity.
  - repeat split; try discriminate; simpl; lia.
  - reflexivity.
Defined.

(** A click on Cancel before the outcome arrives changes nothing of the
    way the outcome is presented: the window after the outcome is the
    same with and without the click. *)
Theorem cancel_click_leaves_presentation msg ok errs is_running u :
  Shell.on_conversion_finished msg ok errs
    (Shell.cancel_conversion_process is_running u) =
  Shell.on_conversion_finished msg ok errs u.
Proof.
  destruct u as [i o th bs bc li lo sp cf b st bx].
  unfold Shell.cancel_conversion_process. simpl.
  destruct th as [t|]; [|reflexivity].
  destruct is_running; [|reflexivity].
  unfold Shell.on_conversion_finished. simpl.
  destruct errs;
    repeat match goal with
    | |- context [if ?c then _ else _] => destruct c
    end; reflexivity.
Qed.

(** Whichever way a run ends, the files it has written are those of the
    pages ticked off whose [save] returned, in page order: a cancellation
    or a fatal error neither removes nor adds a file. *)
Theorem written_files_match_ticks W input out dpi fmt :
  let t := init W input out dpi fmt in
  let tr := run_trace W t in
  written tr =
    map (output_image_path t) (filter (saved W) (seq 0 (length (ticks tr))))
  /\ length (written tr) = converted_upto W (length (ticks tr)).
Proof.
  intros t tr. unfold tr.
  assert (H : written (run_trace W t) =
              map (output_image_path t)
                (filter (saved W) (seq 0 (length (ticks (run_trace W t)))))).
  { destruct (run_trace_outcome W t (init_is_fresh _ _ _ _ _)) as (c & _ & Ho).
    destruct Ho as [Hex|e_os Hex Hmk Hcl|e Hex Hmk Hop|Hex Hmk Hop
        |P k s c tail Hs B E|e_mk Hex_mk Hmk_mk Hcl_mk];
      try reflexivity.
    destruct (at_boundary_facts W t k s B) as (P' & F).
    rewrite written_app, ticks_app, length_app, (bf_written _ _ _ _ _ F),
      (boundary_ticks _ _ _ _ _ F), length_seq.
    destruct E; simpl; rewrite app_nil_r, Nat.add_0_r; reflexivity. }
  split; [exact H|]. rewrite H, length_map. reflexivity.
Qed.

(* ================================================================== *)
(** ** The file dialogs *)

Lemma append_nonempty_r (a b : string) : b <> "" -> (a ++ b)%string <> "".
Proof.
  intros Hb. destruct a; simpl; [exact Hb|discriminate].
Qed.

Lemma os_path_join_nonempty a b : b <> "" -> Py.os_path_join a b <> "".
Proof.
  intros Hb. unfold Py.os_path_join.
  destruct (Py.startswith "/" b); [exact Hb|].
  destruct ((a =? "")%string || Py.endswith_char "/" a).
  - apply append_nonempty_r. exact Hb.
  - apply append_nonempty_r. discriminate.
Qed.

Lemma suggested_dir_nonempty os f : Shell.suggested_dir os f <> "".
Proof.
  unfold Shell.suggested_dir. apply os_path_join_nonempty.
  apply append_nonempty_r. discriminate.
Qed.

(** The output folder is suggested once only.  From a window with no
    output folder, choosing a PDF suggests the folder [<stem>_images]
    beside it, which is enough for Start to launch a run; choosing
    another PDF afterwards keeps the folder suggested for the first one.
    A folder chosen in the folder dialog is kept as well. *)
Theorem output_folder_suggested_once W os f1 f2 d u :
  f1 <> "" -> f2 <> "" -> d <> "" ->
  Shell.output_directory_path u = "" ->
  let u1 := Shell.select_input_pdf_dialog os f1 u in
  let u2 := Shell.select_input_pdf_dialog os f2 u1 in
  let u3 := Shell.select_input_pdf_dialog os f2
              (Shell.select_output_folder_dialog os d u) in
  Shell.input_pdf_path u1 = f1 /\
  Shell.output_directory_path u1 = Shell.suggested_dir os f1 /\
  Shell.processing_thread (Shell.start_conversion_process W u1) =
    Some (init W f1 (Shell.suggested_dir os f1) (Shell.spin_dpi u)
               (Shell.combo_format u)) /\
  Shell.input_pdf_path u2 = f2 /\
  Shell.output_directory_path u2 = Shell.suggested_dir os f1 /\
  Shell.input_pdf_path u3 = f2 /\
  Shell.output_directory_path u3 = d.
Proof.
  intros H1 H2 Hd Hout u1 u2 u3.
  pose proof (suggested_dir_nonempty os f1) as Hs.
  assert (E1 : u1 = Shell.set_output (Shell.suggested_dir os f1)
                 (Shell.basename os (Shell.suggested_dir os f1))
                 (Shell.showMessage ("Input PDF: " ++ Shell.basename os f1)
                    (Shell.set_input f1 (Shell.basename os f1) u))).
  { unfold u1, Shell.select_input_pdf_dialog.
    rewrite (string_eqb_nonempty _ H1). simpl.
    rewrite Hout. reflexivity. }
  assert (E2 : u2 = Shell.showMessage ("Input PDF: " ++ Shell.basename os f2)
                 (Shell.set_input f2 (Shell.basename os f2) u1)).
  { unfold u2, Shell.select_input_pdf_dialog.
    rewrite (string_eqb_nonempty _ H2). rewrite E1. simpl.
    rewrite (string_eqb_nonempty _ Hs). reflexivity. }
  assert (E3 : u3 = Shell.showMessage ("Input PDF: " ++ Shell.basename os f2)
                 (Shell.set_input f2 (Shell.basename os f2)
                    (Shell.select_output_folder_dialog os d u))).
  { unfold u3, Shell.select_input_pdf_dialog, Shell.select_output_folder_dialog.
    rewrite (string_eqb_nonempty _ H2), (string_eqb_nonempty _ Hd). simpl.
    rewrite (string_eqb_nonempty _ Hd). reflexivity. }
  split; [rewrite E1; reflexivity|].
  split; [rewrite E1; reflexivity|].
  split.
  { unfold Shell.start_conversion_process. rewrite E1. simpl.
    rewrite (string_eqb_nonempty _ H1), (string_eqb_nonempty _ Hs).
    reflexivity. }
  split; [rewrite E2; reflexivity|].
  split; [rewrite E2, E1; reflexivity|].
  split; [rewrite E3; reflexivity|].
  rewrite E3. unfold Shell.select_output_folder_dialog.
  rewrite (string_eqb_nonempty _ Hd). reflexivity.
Qed.

Lemma output_folder_suggested_once_witness :
  Shell.output_directory_path
    (Shell.select_input_pdf_dialog sample_os_path "c/d.pdf"
       (Shell.select_input_pdf_dialog sample_os_path "a/b.pdf"
          Shell.setup_ui)) = "a/b_images".
Proof.
  destruct (output_folder_suggested_once missing_source sample_os_path
              "a/b.pdf" "c/d.pdf" "e" Shell.setup_ui)
    as (_ & _ & _ & _ & H & _);
    [discriminate|discriminate|discriminate|reflexivity|exact H].
Defined.

(* ================================================================== *)
(** ** The packaging script *)

Ltac build_leaf := solve [vm_compute; repeat split; reflexivity].

(** The facts about a run of the script, by following the script
    through its branches. *)
Lemma build_log_shape W f :
  Build.runs (Build.build_log W f) =
    (if Build.clean_before_ok W f
     then [Build.pyinstaller_args (Build.icon_exists W)] else []) /\
  Build.tidied (Build.build_log W f) =
    if Build.clean_before_ok W f then
      match Build.run_raises W (Build.pyinstaller_args (Build.icon_exists W))
      with
      | None =>
          Nat.b2n (Build.build_exists (Build.files_after_run W))
          + Nat.b2n (Build.spec_exists (Build.files_after_run W))
      | Some _ => 0
      end
    else 0.
Proof.
  destruct W as [icon cwd e1 e2 e3 rr [d' b' sp'] e4 e5].
  destruct f as [d b sp].
  unfold Build.build_log, Build.clean_before_ok,
    Build.build_executable, Build.build_body, Build.PyInstaller_run.
  cbn [Build.icon_exists Build.getcwd Build.rmtree_dist_error
       Build.rmtree_build_error Build.remove_spec_error Build.run_raises
       Build.files_after_run Build.rmtree_build_error_after
       Build.remove_spec_error_after Build.build_exists Build.spec_exists].
  set (args := Build.pyinstaller_args icon).
  destruct d; [destruct e1 as [t1|]; [build_leaf|]|].
  all: destruct b; [destruct e2 as [t2|]; [build_leaf|]|].
  all: destruct sp; [destruct e3 as [t3|]; [build_leaf|]|].
  all: destruct (rr args) as [[[|n|txt]|txt]|];
    [build_leaf|destruct n; build_leaf|build_leaf|build_leaf|].
  all: destruct b'; [destruct e4 as [t4|]|].
  all: destruct sp'; [destruct e5 as [t5|]|].
  all: build_leaf.
Qed.

(** PyInstaller is called at most once, and only once everything that
    was there from an earlier build has been removed without an
    exception; its arguments end with the script and carry the icon
    option exactly when the icon file exists. *)
Theorem build_runs_pyinstaller_after_cleaning W f :
  let args := Build.pyinstaller_args (Build.icon_exists W) in
  Build.runs (Build.build_log W f) =
    (if Build.clean_before_ok W f then [args] else []) /\
  last args "" = Build.SCRIPT_FILE /\
  (In ("--icon=" ++ Build.ICON_FILE)%string args <->
   Build.icon_exists W = true).
Proof.
  intros args. split; [exact (proj1 (build_log_shape W f))|].
  unfold args. destruct (Build.icon_exists W).
  - split; [reflexivity|]. split; [reflexivity|].
    intros _. vm_compute. do 4 right. left. reflexivity.
  - split; [reflexivity|]. split; [|discriminate].
    vm_compute. intros H.
    repeat (destruct H as [H|H]; [discriminate|]). contradiction.
Qed.

(** The build directory and the .spec file are removed after the build
    only when PyInstaller returns: when it leaves by [SystemExit], also
    with the code 0 that the script announces as a success, nothing is
    removed afterwards. *)
Theorem build_tidies_only_after_return W f :
  Build.tidied (Build.build_log W f) =
    if Build.clean_before_ok W f then
      match Build.run_raises W (Build.pyinstaller_args (Build.icon_exists W))
      with
      | None =>
          Nat.b2n (Build.build_exists (Build.files_after_run W))
          + Nat.b2n (Build.spec_exists (Build.files_after_run W))
      | Some _ => 0
      end
    else 0.
Proof.
  exact (proj2 (build_log_shape W f)).
Qed.
